(** * Polled I2C sensor drivers: LeafWetness and the two Sen0590 drivers

    A shallow embedding of the three ESPHome components

      - [tinovi-leaf-sensor/tinovi_leaf_wetness.h]  (class [LeafWetness]),
      - the availability-polled [sen0590.h]         (class [Sen0590], four
        working states plus [IDLE]),
      - the time-polled [sen0590.h]                 (class [Sen0590], with
        the two settle periods),

    together with the part of the Arduino environment they call: the
    [millis()] counter, the [Wire] receive buffer and the ESPHome
    [publish_state] sink.  Every call on [Wire] and every [publish_state]
    of one [loop()] invocation is recorded, in program order, in the list
    of events that the invocation returns. *)

From Stdlib Require Import ZArith List Lia Bool QArith Qabs.
From Stdlib Require Import Lqa.
From Stdlib Require Import Floats.SpecFloat.
Import ListNotations.
Local Open Scope Z_scope.

(** ** Machine arithmetic *)

(** [unsigned long] on the ESP targets is 32 bits wide; subtraction of two
    [millis()] readings wraps around. *)
Definition ULONG_BITS : Z := 32.
Definition wrap_ulong (x : Z) : Z := x mod 2 ^ ULONG_BITS.

(** Conversion of the [int] returned by [Wire.read()] to a [byte]. *)
Definition to_byte (r : Z) : Z := Z.land r 255.

Definition is_byte (b : Z) : Prop := 0 <= b < 256.

(** The bytes of an [int16_t] object written through a byte pointer, on a
    little-endian target: the byte at offset 0 holds bits 0..7 of the
    object, the byte at offset 1 bits 8..15, and bit 15 is the sign bit of
    the two's complement value. *)
Definition int16_of_bytes (p0 p1 : Z) : Z :=
  let u := Z.lor p0 (Z.shiftl p1 8) in
  if Z.testbit u 15 then u - 65536 else u.

(** ** Floating point values (IEEE 754, round to nearest even) *)

Module IEEE.

Definition f64_of_int (n : Z) : spec_float := binary_normalize 53 1024 n 0 false.

Definition f64_div (x y : spec_float) : spec_float := SFdiv 53 1024 x y.

(** Narrowing of a [double] to a [float]. *)
Definition f32_of_f64 (x : spec_float) : spec_float :=
  match x with
  | S754_finite s m e => binary_normalize 24 128 (cond_Zopp s (Zpos m)) e s
  | _ => x
  end.

(** Conversion of an [int] argument to the [float] parameter of
    [publish_state]. *)
Definition f32_of_int (n : Z) : spec_float := binary_normalize 24 128 n 0 false.

(** The rational number a finite float denotes. *)
Definition SF2Q (x : spec_float) : option Q :=
  match x with
  | S754_zero _ => Some (0 # 1)%Q
  | S754_finite s m e =>
      Some (match e with
            | Z0 => inject_Z (cond_Zopp s (Zpos m))
            | Zpos p => inject_Z (cond_Zopp s (Zpos m) * 2 ^ Zpos p)
            | Zneg p => Qmake (cond_Zopp s (Zpos m)) (2 ^ p)
            end)
  | _ => None
  end.

End IEEE.

(** ** The environment of one [loop()] invocation *)

(** The ESPHome sensors a driver publishes on.  [this_sensor] is the
    component itself (both [Sen0590] classes inherit from [Sensor]). *)
Inductive sensor : Type :=
| wetness_sensor
| temperature_sensor
| this_sensor.

Inductive event : Type :=
| BeginTransmission (addr : Z)
| WireWrite (b : Z)
| EndTransmission (status : Z)
| RequestFrom (addr quantity : Z)
| Available (n : Z)
| Read (r : Z)
| Publish (s : sensor) (v : spec_float).

(** What the outside world answers during one [loop()] invocation.  No
    [loop()] of the three drivers calls [endTransmission()] or
    [requestFrom()] more than once, so one answer of each kind suffices.
    [millis()] is called once per [loop()], except in [case READY] of the
    driver with two settle periods, which compares one reading with
    [request_wait_period] and, after the bus write, stores a second one in
    [startRead]: [clock] is what the first call of an invocation reads,
    [clock2] what a second call reads. *)
Record env : Type := mkEnv {
  clock : Z;          (* the millisecond counter at the first millis() *)
  clock2 : Z;         (* the millisecond counter at a second millis() *)
  ack : Z;            (* the status Wire.endTransmission() returns *)
  reply : list Z      (* the bytes the slave sends on a read request *)
}.

Definition millis (e : env) : Z := wrap_ulong (clock e).

(** The second [millis()] call of one invocation. *)
Definition millis2 (e : env) : Z := wrap_ulong (clock2 e).

(** ** A state-and-output monad for the [Wire] receive buffer *)

Definition io (A : Type) : Type := list Z -> A * list Z * list event.

Definition ret {A} (a : A) : io A := fun rx => (a, rx, []).

Definition bind {A B} (m : io A) (f : A -> io B) : io B :=
  fun rx =>
    let '(a, rx1, ev1) := m rx in
    let '(b, rx2, ev2) := f a rx1 in
    (b, rx2, ev1 ++ ev2).

Declare Scope io_scope.
Delimit Scope io_scope with io.
Notation "x <- m ;; k" := (bind m (fun x => k))
  (at level 61, m at next level, right associativity) : io_scope.
Notation "m ;; k" := (bind m (fun _ => k))
  (at level 61, right associativity) : io_scope.
Local Open Scope io_scope.

Definition emit (ev : event) : io unit := fun rx => (tt, rx, [ev]).

Module Wire.

Definition beginTransmission (a : Z) : io unit := emit (BeginTransmission a).

Definition write (b : Z) : io unit := emit (WireWrite b).

Definition endTransmission (e : env) : io Z :=
  emit (EndTransmission (ack e)) ;; ret (ack e).

(** The receive buffer is replaced by what the slave delivered, at most
    [n] bytes. *)
Definition requestFrom (e : env) (a n : Z) : io unit :=
  fun _ => (tt, firstn (Z.to_nat n) (reply e), [RequestFrom a n]).

Definition available : io Z :=
  fun rx => let n := Z.of_nat (length rx) in (n, rx, [Available n]).

(** [-1] when the buffer is exhausted. *)
Definition read : io Z :=
  fun rx =>
    match rx with
    | [] => (-1, [], [Read (-1)])
    | b :: rest => (b, rest, [Read b])
    end.

End Wire.

Definition publish_state (s : sensor) (v : spec_float) : io unit :=
  emit (Publish s v).

(** ** [tinovi_leaf_wetness.h] *)

Module LeafWetness.

Definition address : Z := 0x61.
Definition wait_period : Z := 300.

Inductive LeafWetnessSensorState : Type :=
| REQUEST | WAITING | READY | READ | IDLE.

Record t : Type := mk {
  startRequest : Z;
  state : LeafWetnessSensorState
}.

Definition init : t := {| startRequest := 0; state := IDLE |}.

Definition set_state (d : t) (s : LeafWetnessSensorState) : t :=
  {| startRequest := startRequest d; state := s |}.

Definition update (d : t) : t := set_state d REQUEST.

(** [float value = ret / 100.0;] *)
Definition value_of (r : Z) : spec_float :=
  IEEE.f32_of_f64 (IEEE.f64_div (IEEE.f64_of_int r) (IEEE.f64_of_int 100)).

(** One turn of [for (int k = 0; k < 2; k++)]. *)
Definition read_one (k : Z) : io unit :=
  p0 <- Wire.read ;;
  p1 <- Wire.read ;;
  let r := int16_of_bytes (to_byte p0) (to_byte p1) in
  let value := value_of r in
  if k =? 0 then publish_state wetness_sensor value
  else if k =? 1 then publish_state temperature_sensor value
  else ret tt.

(** The statements under [case READ:], which [case READY:] falls into. *)
Definition loop_READ (d : t) : io t :=
  n <- Wire.available ;;
  if n =? 4 then
    read_one 0 ;;
    read_one 1 ;;
    ret (set_state d IDLE)
  else ret d.

Section Registers.

(** The two register numbers [REG_READ_ST] and [REG_DATA] are defined in
    [LeafSens.h]; the driver is modelled for any value of them. *)
Variables REG_READ_ST REG_DATA : Z.

Definition loop (e : env) (d : t) : io t :=
  match state d with
  | REQUEST =>
      Wire.beginTransmission address ;;
      Wire.write REG_READ_ST ;;
      _ <- Wire.endTransmission e ;;
      ret {| startRequest := millis e; state := WAITING |}
  | WAITING =>
      if wait_period <? wrap_ulong (millis e - startRequest d)
      then ret (set_state d READY)
      else ret d
  | READY =>
      Wire.beginTransmission address ;;
      Wire.write REG_DATA ;;
      _ <- Wire.endTransmission e ;;
      Wire.requestFrom e address 4 ;;
      (* no break: control falls through into case READ *)
      loop_READ (set_state d READ)
  | READ => loop_READ d
  | IDLE => ret d
  end.

End Registers.

End LeafWetness.

(** ** [sen0590.h], the driver that polls [Wire.available()] *)

Module Sen0590.

Definition address : Z := 0x74.
Definition wait_period : Z := 50.

Inductive Sen0590SensorState : Type :=
| REQUEST | WAITING | READY | READ | IDLE.

Record t : Type := mk {
  startRequest : Z;
  state : Sen0590SensorState
}.

Definition init : t := {| startRequest := 0; state := IDLE |}.

Definition set_state (d : t) (s : Sen0590SensorState) : t :=
  {| startRequest := startRequest d; state := s |}.

Definition update (d : t) : t := set_state d REQUEST.

(** [int distance = (buf[0] * 0x100 + buf[1] + 10);] *)
Definition distance_of (buf0 buf1 : Z) : Z := buf0 * 0x100 + buf1 + 10.

Definition loop (e : env) (d : t) : io t :=
  match state d with
  | REQUEST =>
      Wire.beginTransmission address ;;
      Wire.write 0x10 ;;
      Wire.write 0xB0 ;;
      _ <- Wire.endTransmission e ;;
      ret {| startRequest := millis e; state := WAITING |}
  | WAITING =>
      if wait_period <? wrap_ulong (millis e - startRequest d)
      then ret (set_state d READY)
      else ret d
  | READY =>
      Wire.beginTransmission address ;;
      Wire.write 0x02 ;;
      st <- Wire.endTransmission e ;;
      if negb (st =? 0) then ret d   (* return; *)
      else
        Wire.requestFrom e address 2 ;;
        ret (set_state d READ)
  | READ =>
      n <- Wire.available ;;
      if n =? 2 then
        buf0 <- Wire.read ;;
        buf1 <- Wire.read ;;
        publish_state this_sensor (IEEE.f32_of_int (distance_of buf0 buf1)) ;;
        ret d
      else ret d
  | IDLE => ret d
  end.

End Sen0590.

(** ** [sen0590.h], the driver with a request and a read settle period *)

Module Sen0590Settle.

Definition address : Z := 0x74.
Definition request_wait_period : Z := 50.
Definition read_wait_period : Z := 20.

Inductive Sen0590SensorState : Type :=
| REQUEST | READY | READ | IDLE.

Record t : Type := mk {
  startRequest : Z;
  startRead : Z;
  state : Sen0590SensorState
}.

Definition init : t := {| startRequest := 0; startRead := 0; state := IDLE |}.

Definition set_state (d : t) (s : Sen0590SensorState) : t :=
  {| startRequest := startRequest d; startRead := startRead d; state := s |}.

Definition update (d : t) : t := set_state d REQUEST.

Definition distance_of (buf0 buf1 : Z) : Z := buf0 * 0x100 + buf1 + 10.

Definition loop (e : env) (d : t) : io t :=
  match state d with
  | REQUEST =>
      Wire.beginTransmission address ;;
      Wire.write 0x10 ;;
      Wire.write 0xB0 ;;
      _ <- Wire.endTransmission e ;;
      ret {| startRequest := millis e; startRead := startRead d; state := READY |}
  | READY =>
      if request_wait_period >? wrap_ulong (millis e - startRequest d)
      then ret d   (* break; *)
      else
        Wire.beginTransmission address ;;
        Wire.write 0x02 ;;
        st <- Wire.endTransmission e ;;
        if negb (st =? 0) then ret d   (* return; *)
        else
          ret {| startRequest := startRequest d; startRead := millis2 e; state := READ |}
  | READ =>
      if read_wait_period >? wrap_ulong (millis e - startRead d)
      then ret d   (* break; *)
      else
        Wire.requestFrom e address 2 ;;
        buf0 <- Wire.read ;;
        buf1 <- Wire.read ;;
        publish_state this_sensor (IEEE.f32_of_int (distance_of buf0 buf1)) ;;
        ret (set_state d IDLE)
  | IDLE => ret d
  end.

End Sen0590Settle.

(** ** Repeated invocation of [loop()] *)

(** The scheduler calls [loop()] over and over; [run step es d] performs
    one call per element of [es] and collects the events of all of them. *)
Fixpoint run {D : Type} (step : env -> D -> io D) (es : list env) (d : D) : io D :=
  match es with
  | [] => ret d
  | e :: es' => d' <- step e d ;; run step es' d'
  end.

(** The three components of an invocation's result. *)
Definition driver_of {D} (r : D * list Z * list event) : D := fst (fst r).
Definition rx_of {D} (r : D * list Z * list event) : list Z := snd (fst r).
Definition events_of {D} (r : D * list Z * list event) : list event := snd r.

Definition is_publish (ev : event) : bool :=
  match ev with Publish _ _ => true | _ => false end.

Definition is_read (ev : event) : bool :=
  match ev with Read _ => true | _ => false end.

Definition is_available (ev : event) : bool :=
  match ev with Available _ => true | _ => false end.

Definition published (evs : list event) : list event := filter is_publish evs.

(** ** The elapsed times the three drivers compare *)

Definition leaf_elapsed (e : env) (d : LeafWetness.t) : Z :=
  wrap_ulong (millis e - LeafWetness.startRequest d).

Definition sen_elapsed (e : env) (d : Sen0590.t) : Z :=
  wrap_ulong (millis e - Sen0590.startRequest d).

Definition settle_request_elapsed (e : env) (d : Sen0590Settle.t) : Z :=
  wrap_ulong (millis e - Sen0590Settle.startRequest d).

Definition settle_read_elapsed (e : env) (d : Sen0590Settle.t) : Z :=
  wrap_ulong (millis e - Sen0590Settle.startRead d).

(** ** Reference readings of the raw bytes *)

(** The signed 16-bit integer whose little-endian encoding is [lo], [hi]:
    the one number in [-32768, 32767] congruent to [lo + 256 * hi] modulo
    [65536].  Stated arithmetically, for comparison with
    [int16_of_bytes]. *)
Definition spec_int16_le (lo hi : Z) : Z :=
  (lo + 256 * hi + 32768) mod 65536 - 32768.

(** The unsigned 16-bit integer whose big-endian encoding is [high], [low]. *)
Definition spec_uint16_be (high low : Z) : Z := high * 256 + low.

(** [n] consecutive integers from [lo] on. *)
Fixpoint zrange (lo : Z) (n : nat) : list Z :=
  match n with
  | O => []
  | S k => lo :: zrange (lo + 1) k
  end.

(** The float published for the raw reading [w] denotes a rational within
    a relative distance of [2^-24] (half a unit in the last place of a
    [float]) from [w / 100]. *)
Definition value_of_close (w : Z) : bool :=
  match IEEE.SF2Q (LeafWetness.value_of w) with
  | Some q => Qle_bool (Qabs (q - (w # 100)) * inject_Z (2 ^ 24)) (Qabs (w # 100))
  | None => false
  end.

(** The [float] an [int] converts to denotes that very integer. *)
Definition f32_int_exact (n : Z) : bool :=
  match IEEE.SF2Q (IEEE.f32_of_int n) with
  | Some q => Qeq_bool q (inject_Z n)
  | None => false
  end.

(** ** Further observations on states and events *)

(** The integer value of each enumerator, in the order of the [enum]
    declaration; it is what [ESP_LOGVV("...", "STATE: %d", state)] prints. *)
Definition leaf_state_num (s : LeafWetness.LeafWetnessSensorState) : Z :=
  match s with
  | LeafWetness.REQUEST => 0
  | LeafWetness.WAITING => 1
  | LeafWetness.READY => 2
  | LeafWetness.READ => 3
  | LeafWetness.IDLE => 4
  end.

Definition sen_state_num (s : Sen0590.Sen0590SensorState) : Z :=
  match s with
  | Sen0590.REQUEST => 0
  | Sen0590.WAITING => 1
  | Sen0590.READY => 2
  | Sen0590.READ => 3
  | Sen0590.IDLE => 4
  end.

Definition settle_state_num (s : Sen0590Settle.Sen0590SensorState) : Z :=
  match s with
  | Sen0590Settle.REQUEST => 0
  | Sen0590Settle.READY => 1
  | Sen0590Settle.READ => 2
  | Sen0590Settle.IDLE => 3
  end.

Definition is_begin_transmission (ev : event) : bool :=
  match ev with BeginTransmission _ => true | _ => false end.

Definition is_end_transmission (ev : event) : bool :=
  match ev with EndTransmission _ => true | _ => false end.

Definition is_request_from (ev : event) : bool :=
  match ev with RequestFrom _ _ => true | _ => false end.

Definition count (p : event -> bool) (evs : list event) : nat :=
  length (filter p evs).

(** * Properties *)

(** ** Generic facts about [run] and the wrap-around clock *)

Lemma run_cons {D} (step : env -> D -> io D) e es d rx :
  run step (e :: es) d rx =
  let '(d1, rx1, ev1) := step e d rx in
  let '(d2, rx2, ev2) := run step es d1 rx1 in
  (d2, rx2, ev1 ++ ev2).
Proof. reflexivity. Qed.

(** A [loop()] that changes nothing and emits [ev] can be repeated at will. *)
Lemma run_stutter {D} (step : env -> D -> io D) d rx (ev : list event) :
  (forall e, step e d rx = (d, rx, ev)) ->
  forall es, run step es d rx = (d, rx, concat (map (fun _ => ev) es)).
Proof.
  intros Hstep es; induction es as [|e es IH].
  - reflexivity.
  - rewrite run_cons, Hstep, IH. reflexivity.
Qed.

(** A property of the driver that every [loop()] establishes holds after
    any non-empty series of calls, and is kept by the empty one. *)
Lemma run_preserves {D} (step : env -> D -> io D) (P : D -> Prop) :
  (forall e d rx, P (driver_of (step e d rx))) ->
  forall es d rx, P d -> P (driver_of (run step es d rx)).
Proof.
  intros Hstep es; induction es as [|e es IH]; intros d rx Hd.
  - exact Hd.
  - rewrite run_cons.
    specialize (Hstep e d rx).
    destruct (step e d rx) as [[d1 rx1] ev1]. cbn in Hstep.
    specialize (IH d1 rx1 Hstep).
    destruct (run step es d1 rx1) as [[d2 rx2] ev2]. exact IH.
Qed.

(** The same for a property that every [loop()] merely keeps. *)
Lemma run_preserves_from {D} (step : env -> D -> io D) (P : D -> Prop) :
  (forall e d rx, P d -> P (driver_of (step e d rx))) ->
  forall es d rx, P d -> P (driver_of (run step es d rx)).
Proof.
  intros Hstep es; induction es as [|e es IH]; intros d rx Hd.
  - exact Hd.
  - rewrite run_cons.
    specialize (Hstep e d rx Hd).
    destruct (step e d rx) as [[d1 rx1] ev1]. cbn in Hstep.
    specialize (IH d1 rx1 Hstep).
    destruct (run step es d1 rx1) as [[d2 rx2] ev2]. exact IH.
Qed.

Lemma wrap_ulong_range x : 0 <= wrap_ulong x < 2 ^ ULONG_BITS.
Proof. unfold wrap_ulong. apply Z.mod_pos_bound. reflexivity. Qed.

(** As long as the counter has not wrapped since [start], the elapsed time
    the drivers compute is the plain difference. *)
Lemma elapsed_no_wrap (e : env) (start : Z) :
  0 <= start <= clock e -> clock e < 2 ^ ULONG_BITS ->
  wrap_ulong (millis e - start) = clock e - start.
Proof.
  intros H1 H2. unfold millis, wrap_ulong.
  rewrite (Z.mod_small (clock e)) by lia.
  apply Z.mod_small. lia.
Qed.

(** Across a wrap of the counter the difference is still the number of
    milliseconds that passed. *)
Lemma elapsed_across_wrap (e : env) (start : Z) :
  0 <= clock e < start -> start < 2 ^ ULONG_BITS ->
  wrap_ulong (millis e - start) = clock e + 2 ^ ULONG_BITS - start.
Proof.
  intros H1 H2. unfold millis, wrap_ulong.
  rewrite (Z.mod_small (clock e)) by lia.
  replace (clock e - start) with (clock e + 2 ^ ULONG_BITS - start + (-1) * 2 ^ ULONG_BITS) by ring.
  rewrite Z.mod_add by (cbv; discriminate).
  apply Z.mod_small. lia.
Qed.

(** ** WAITING *)

Section Waiting.

Variables REG_READ_ST REG_DATA : Z.

Lemma leaf_waiting_step e d rx :
  LeafWetness.state d = LeafWetness.WAITING ->
  LeafWetness.loop REG_READ_ST REG_DATA e d rx =
  (if LeafWetness.wait_period <? leaf_elapsed e d
   then LeafWetness.set_state d LeafWetness.READY else d, rx, []).
Proof.
  intros Hs. unfold LeafWetness.loop, leaf_elapsed. rewrite Hs.
  destruct (_ <? _); reflexivity.
Qed.

Lemma sen_waiting_step e d rx :
  Sen0590.state d = Sen0590.WAITING ->
  Sen0590.loop e d rx =
  (if Sen0590.wait_period <? sen_elapsed e d
   then Sen0590.set_state d Sen0590.READY else d, rx, []).
Proof.
  intros Hs. unfold Sen0590.loop, sen_elapsed. rewrite Hs.
  destruct (_ <? _); reflexivity.
Qed.

End Waiting.

(** C1 as stated, with the boundary included, fails: exactly 300 ms after
    the request the wetness driver is still WAITING. *)
Lemma C1_boundary_counterexample :
  ~ (forall (e : env) (d : LeafWetness.t) (rx : list Z),
        LeafWetness.state d = LeafWetness.WAITING ->
        (leaf_elapsed e d < LeafWetness.wait_period ->
           LeafWetness.state (driver_of (LeafWetness.loop 0 0 e d rx))
           = LeafWetness.WAITING) /\
        (LeafWetness.wait_period <= leaf_elapsed e d ->
           LeafWetness.state (driver_of (LeafWetness.loop 0 0 e d rx))
           = LeafWetness.READY)).
Proof.
  intros H.
  destruct (H (mkEnv 300 300 0 []) (LeafWetness.mk 0 LeafWetness.WAITING) [] eq_refl)
    as [_ Hgo].
  assert (Hle : LeafWetness.wait_period
                <= leaf_elapsed (mkEnv 300 300 0 []) (LeafWetness.mk 0 LeafWetness.WAITING))
    by (vm_compute; discriminate).
  specialize (Hgo Hle). vm_compute in Hgo. discriminate Hgo.
Qed.

(** C1 (amended): in WAITING, with [el] the elapsed time computed as the
    wrapped difference of [millis()] and [startRequest], [loop()] of the
    wetness driver and of the availability-polled rangefinder leaves the
    driver untouched while [el <= wait_period] and moves to READY as soon as
    [el > wait_period]; the boundary [el = wait_period] still waits.  No
    bus call is made and nothing is published either way. *)
Theorem C1_waiting_strict_threshold :
  forall (REG_READ_ST REG_DATA : Z) (e : env) (rx : list Z)
         (a : LeafWetness.t) (b : Sen0590.t),
    LeafWetness.state a = LeafWetness.WAITING ->
    Sen0590.state b = Sen0590.WAITING ->
    LeafWetness.wait_period = 300 /\ Sen0590.wait_period = 50 /\
    (leaf_elapsed e a <= LeafWetness.wait_period ->
       LeafWetness.loop REG_READ_ST REG_DATA e a rx = (a, rx, [])) /\
    (LeafWetness.wait_period < leaf_elapsed e a ->
       LeafWetness.loop REG_READ_ST REG_DATA e a rx =
       (LeafWetness.set_state a LeafWetness.READY, rx, [])) /\
    (sen_elapsed e b <= Sen0590.wait_period ->
       Sen0590.loop e b rx = (b, rx, [])) /\
    (Sen0590.wait_period < sen_elapsed e b ->
       Sen0590.loop e b rx = (Sen0590.set_state b Sen0590.READY, rx, [])).
Proof.
  intros R1 R2 e rx a b Ha Hb.
  rewrite (leaf_waiting_step R1 R2 e a rx Ha), (sen_waiting_step e b rx Hb).
  repeat split; try reflexivity; intros H.
  - destruct (Z.ltb_spec LeafWetness.wait_period (leaf_elapsed e a)); [lia | reflexivity].
  - destruct (Z.ltb_spec LeafWetness.wait_period (leaf_elapsed e a)); [reflexivity | lia].
  - destruct (Z.ltb_spec Sen0590.wait_period (sen_elapsed e b)); [lia | reflexivity].
  - destruct (Z.ltb_spec Sen0590.wait_period (sen_elapsed e b)); [reflexivity | lia].
Qed.

Lemma C1_waiting_strict_threshold_witness :
  let e := mkEnv 301 301 0 [] in
  let a := LeafWetness.mk 0 LeafWetness.WAITING in
  let b := Sen0590.mk 260 Sen0590.WAITING in
  LeafWetness.state a = LeafWetness.WAITING /\
  Sen0590.state b = Sen0590.WAITING /\
  LeafWetness.loop 1 2 e a [] = (LeafWetness.mk 0 LeafWetness.READY, [], []) /\
  Sen0590.loop e b [] = (b, [], []).
Proof.
  intros e a b.
  assert (Ha : LeafWetness.state a = LeafWetness.WAITING) by reflexivity.
  assert (Hb : Sen0590.state b = Sen0590.WAITING) by reflexivity.
  destruct (C1_waiting_strict_threshold 1 2 e [] a b Ha Hb)
    as (_ & _ & _ & Hgo & Hstay & _).
  split; [exact Ha|]. split; [exact Hb|]. split.
  - apply Hgo. vm_compute. reflexivity.
  - apply Hstay. vm_compute. discriminate.
Defined.

(** ** IDLE *)

Section Idle.

Variables REG_READ_ST REG_DATA : Z.

Lemma leaf_idle_step e d rx :
  LeafWetness.state d = LeafWetness.IDLE ->
  LeafWetness.loop REG_READ_ST REG_DATA e d rx = (d, rx, []).
Proof. intros Hs. unfold LeafWetness.loop. rewrite Hs. reflexivity. Qed.

Lemma sen_idle_step e d rx :
  Sen0590.state d = Sen0590.IDLE -> Sen0590.loop e d rx = (d, rx, []).
Proof. intros Hs. unfold Sen0590.loop. rewrite Hs. reflexivity. Qed.

Lemma settle_idle_step e d rx :
  Sen0590Settle.state d = Sen0590Settle.IDLE ->
  Sen0590Settle.loop e d rx = (d, rx, []).
Proof. intros Hs. unfold Sen0590Settle.loop. rewrite Hs. reflexivity. Qed.

End Idle.

Lemma concat_map_nil {A B} (l : list A) : concat (map (fun _ => @nil B) l) = [].
Proof. induction l as [|x l IH]; [reflexivity | exact IH]. Qed.

(** C8: a driver in IDLE is a fixed point of [loop()]: however many times
    it is called, and whatever the clock and the bus would answer, no field
    changes, the receive buffer is left alone, and the list of events (bus
    calls and publications) is empty. *)
Theorem C8_idle_is_inert :
  forall (REG_READ_ST REG_DATA : Z) (es : list env) (rx : list Z)
         (a : LeafWetness.t) (b : Sen0590.t) (c : Sen0590Settle.t),
    LeafWetness.state a = LeafWetness.IDLE ->
    Sen0590.state b = Sen0590.IDLE ->
    Sen0590Settle.state c = Sen0590Settle.IDLE ->
    run (LeafWetness.loop REG_READ_ST REG_DATA) es a rx = (a, rx, []) /\
    run Sen0590.loop es b rx = (b, rx, []) /\
    run Sen0590Settle.loop es c rx = (c, rx, []).
Proof.
  intros R1 R2 es rx a b c Ha Hb Hc.
  rewrite (run_stutter (LeafWetness.loop R1 R2) a rx [])
    by (intros e; apply leaf_idle_step, Ha).
  rewrite (run_stutter Sen0590.loop b rx [])
    by (intros e; apply sen_idle_step, Hb).
  rewrite (run_stutter Sen0590Settle.loop c rx [])
    by (intros e; apply settle_idle_step, Hc).
  rewrite concat_map_nil. repeat split.
Qed.

Lemma C8_idle_is_inert_witness :
  let es := [mkEnv 0 0 0 [1; 2]; mkEnv 1000 1000 4 []; mkEnv 70000 70000 0 [9; 9; 9; 9]] in
  LeafWetness.state LeafWetness.init = LeafWetness.IDLE /\
  Sen0590.state Sen0590.init = Sen0590.IDLE /\
  Sen0590Settle.state Sen0590Settle.init = Sen0590Settle.IDLE /\
  run (LeafWetness.loop 1 2) es LeafWetness.init [7] = (LeafWetness.init, [7], []) /\
  run Sen0590.loop es Sen0590.init [7] = (Sen0590.init, [7], []) /\
  run Sen0590Settle.loop es Sen0590Settle.init [7] = (Sen0590Settle.init, [7], []).
Proof.
  intros es.
  split; [reflexivity|]. split; [reflexivity|]. split; [reflexivity|].
  apply (C8_idle_is_inert 1 2 es [7]); reflexivity.
Defined.

(** ** REQUEST *)

Section Request.

Variables REG_READ_ST REG_DATA : Z.

Lemma leaf_request_step e d rx :
  LeafWetness.state d = LeafWetness.REQUEST ->
  LeafWetness.loop REG_READ_ST REG_DATA e d rx =
  (LeafWetness.mk (millis e) LeafWetness.WAITING, rx,
   [BeginTransmission LeafWetness.address; WireWrite REG_READ_ST;
    EndTransmission (ack e)]).
Proof. intros Hs. unfold LeafWetness.loop. rewrite Hs. reflexivity. Qed.

Lemma sen_request_step e d rx :
  Sen0590.state d = Sen0590.REQUEST ->
  Sen0590.loop e d rx =
  (Sen0590.mk (millis e) Sen0590.WAITING, rx,
   [BeginTransmission Sen0590.address; WireWrite 0x10; WireWrite 0xB0;
    EndTransmission (ack e)]).
Proof. intros Hs. unfold Sen0590.loop. rewrite Hs. reflexivity. Qed.

Lemma settle_request_step e d rx :
  Sen0590Settle.state d = Sen0590Settle.REQUEST ->
  Sen0590Settle.loop e d rx =
  (Sen0590Settle.mk (millis e) (Sen0590Settle.startRead d) Sen0590Settle.READY, rx,
   [BeginTransmission Sen0590Settle.address; WireWrite 0x10; WireWrite 0xB0;
    EndTransmission (ack e)]).
Proof. intros Hs. unfold Sen0590Settle.loop. rewrite Hs. reflexivity. Qed.

(** No [loop()] ever ends in REQUEST: only [update()] arms a driver. *)
Lemma leaf_loop_not_REQUEST e d rx :
  LeafWetness.state (driver_of (LeafWetness.loop REG_READ_ST REG_DATA e d rx))
  <> LeafWetness.REQUEST.
Proof.
  unfold LeafWetness.loop.
  destruct (LeafWetness.state d) eqn:Hs; cbn; try discriminate.
  - destruct (_ <? _); cbn; [discriminate | congruence].
  - unfold LeafWetness.loop_READ, bind, Wire.available.
    destruct (_ =? 4); cbn.
    + destruct (firstn _ _) as [|x0 [|x1 [|x2 [|x3 r]]]]; cbn; discriminate.
    + discriminate.
  - unfold LeafWetness.loop_READ, bind, Wire.available.
    destruct (_ =? 4); cbn.
    + destruct rx as [|x0 [|x1 [|x2 [|x3 r]]]]; cbn; discriminate.
    + congruence.
  - congruence.
Qed.

Lemma sen_loop_not_REQUEST e d rx :
  Sen0590.state (driver_of (Sen0590.loop e d rx)) <> Sen0590.REQUEST.
Proof.
  unfold Sen0590.loop.
  destruct (Sen0590.state d) eqn:Hs; cbn; try discriminate.
  - destruct (_ <? _); cbn; [discriminate | congruence].
  - destruct (ack e =? 0); cbn; [discriminate | congruence].
  - unfold bind, Wire.available.
    destruct (_ =? 2); cbn.
    + destruct rx as [|x0 [|x1 r]]; cbn; congruence.
    + congruence.
  - congruence.
Qed.

Lemma settle_loop_not_REQUEST e d rx :
  Sen0590Settle.state (driver_of (Sen0590Settle.loop e d rx))
  <> Sen0590Settle.REQUEST.
Proof.
  unfold Sen0590Settle.loop.
  destruct (Sen0590Settle.state d) eqn:Hs; cbn; try discriminate.
  - destruct (_ >? _); cbn; [congruence|].
    destruct (ack e =? 0); cbn; [discriminate | congruence].
  - destruct (_ >? _); cbn; [congruence|].
    destruct (firstn _ _) as [|x0 [|x1 r]]; cbn; discriminate.
  - congruence.
Qed.

End Request.

(** C10: in REQUEST, [loop()] issues the measurement request and, whatever
    status [endTransmission()] returns (zero or not), moves on to the
    waiting phase (WAITING, or READY in the driver with two settle
    periods) with [startRequest] set to the current [millis()]; no later
    [loop()] ever brings the driver back to REQUEST, so the request is not
    sent again until the next [update()]. *)
Theorem C10_request_status_ignored :
  forall (REG_READ_ST REG_DATA : Z) (e : env) (rx : list Z)
         (a : LeafWetness.t) (b : Sen0590.t) (c : Sen0590Settle.t),
    LeafWetness.state a = LeafWetness.REQUEST ->
    Sen0590.state b = Sen0590.REQUEST ->
    Sen0590Settle.state c = Sen0590Settle.REQUEST ->
    (LeafWetness.loop REG_READ_ST REG_DATA e a rx =
       (LeafWetness.mk (millis e) LeafWetness.WAITING, rx,
        [BeginTransmission 0x61; WireWrite REG_READ_ST; EndTransmission (ack e)]) /\
     forall es rx',
       LeafWetness.state
         (driver_of (run (LeafWetness.loop REG_READ_ST REG_DATA) es
                         (LeafWetness.mk (millis e) LeafWetness.WAITING) rx'))
       <> LeafWetness.REQUEST) /\
    (Sen0590.loop e b rx =
       (Sen0590.mk (millis e) Sen0590.WAITING, rx,
        [BeginTransmission 0x74; WireWrite 0x10; WireWrite 0xB0; EndTransmission (ack e)]) /\
     forall es rx',
       Sen0590.state
         (driver_of (run Sen0590.loop es (Sen0590.mk (millis e) Sen0590.WAITING) rx'))
       <> Sen0590.REQUEST) /\
    (Sen0590Settle.loop e c rx =
       (Sen0590Settle.mk (millis e) (Sen0590Settle.startRead c) Sen0590Settle.READY, rx,
        [BeginTransmission 0x74; WireWrite 0x10; WireWrite 0xB0; EndTransmission (ack e)]) /\
     forall es rx',
       Sen0590Settle.state
         (driver_of (run Sen0590Settle.loop es
                         (Sen0590Settle.mk (millis e) (Sen0590Settle.startRead c)
                                           Sen0590Settle.READY) rx'))
       <> Sen0590Settle.REQUEST).
Proof.
  intros R1 R2 e rx a b c Ha Hb Hc.
  split; [|split]; split.
  - apply leaf_request_step, Ha.
  - intros es rx'.
    apply (run_preserves (LeafWetness.loop R1 R2)
             (fun d => LeafWetness.state d <> LeafWetness.REQUEST)).
    + apply leaf_loop_not_REQUEST.
    + discriminate.
  - apply sen_request_step, Hb.
  - intros es rx'.
    apply (run_preserves Sen0590.loop (fun d => Sen0590.state d <> Sen0590.REQUEST)).
    + apply sen_loop_not_REQUEST.
    + discriminate.
  - apply settle_request_step, Hc.
  - intros es rx'.
    apply (run_preserves Sen0590Settle.loop
             (fun d => Sen0590Settle.state d <> Sen0590Settle.REQUEST)).
    + apply settle_loop_not_REQUEST.
    + discriminate.
Qed.

Lemma C10_request_status_ignored_witness :
  let e := mkEnv 1234 1234 2 [] in
  let a := LeafWetness.update LeafWetness.init in
  let b := Sen0590.update Sen0590.init in
  let c := Sen0590Settle.update Sen0590Settle.init in
  LeafWetness.state a = LeafWetness.REQUEST /\
  Sen0590.state b = Sen0590.REQUEST /\
  Sen0590Settle.state c = Sen0590Settle.REQUEST /\
  LeafWetness.loop 1 2 e a [] =
    (LeafWetness.mk 1234 LeafWetness.WAITING, [],
     [BeginTransmission 0x61; WireWrite 1; EndTransmission 2]) /\
  Sen0590.loop e b [] =
    (Sen0590.mk 1234 Sen0590.WAITING, [],
     [BeginTransmission 0x74; WireWrite 0x10; WireWrite 0xB0; EndTransmission 2]) /\
  Sen0590Settle.loop e c [] =
    (Sen0590Settle.mk 1234 0 Sen0590Settle.READY, [],
     [BeginTransmission 0x74; WireWrite 0x10; WireWrite 0xB0; EndTransmission 2]).
Proof.
  intros e a b c.
  assert (Ha : LeafWetness.state a = LeafWetness.REQUEST) by reflexivity.
  assert (Hb : Sen0590.state b = Sen0590.REQUEST) by reflexivity.
  assert (Hc : Sen0590Settle.state c = Sen0590Settle.REQUEST) by reflexivity.
  destruct (C10_request_status_ignored 1 2 e [] a b c Ha Hb Hc)
    as ((HA & _) & (HB & _) & (HC & _)).
  split; [exact Ha|]. split; [exact Hb|]. split; [exact Hc|].
  split; [exact HA|]. split; [exact HB|]. exact HC.
Defined.

(** ** [update()] *)

(** C2: whatever state a driver is in, [update()] puts it in REQUEST at
    once and leaves the stored timestamps alone; it neither refuses nor
    defers.  Whatever was in flight is dropped: the [loop()] that follows
    sends the measurement request and restarts the wait from its own
    [millis()], independently of the state and of the [startRequest] the
    driver had before. *)
Theorem C2_update_preempts :
  forall (REG_READ_ST REG_DATA : Z) (e : env) (rx : list Z)
         (a : LeafWetness.t) (b : Sen0590.t) (c : Sen0590Settle.t),
    (LeafWetness.state (LeafWetness.update a) = LeafWetness.REQUEST /\
     LeafWetness.startRequest (LeafWetness.update a) = LeafWetness.startRequest a /\
     driver_of (LeafWetness.loop REG_READ_ST REG_DATA e (LeafWetness.update a) rx) =
       LeafWetness.mk (millis e) LeafWetness.WAITING) /\
    (Sen0590.state (Sen0590.update b) = Sen0590.REQUEST /\
     Sen0590.startRequest (Sen0590.update b) = Sen0590.startRequest b /\
     driver_of (Sen0590.loop e (Sen0590.update b) rx) =
       Sen0590.mk (millis e) Sen0590.WAITING) /\
    (Sen0590Settle.state (Sen0590Settle.update c) = Sen0590Settle.REQUEST /\
     Sen0590Settle.startRequest (Sen0590Settle.update c) = Sen0590Settle.startRequest c /\
     Sen0590Settle.startRead (Sen0590Settle.update c) = Sen0590Settle.startRead c /\
     driver_of (Sen0590Settle.loop e (Sen0590Settle.update c) rx) =
       Sen0590Settle.mk (millis e) (Sen0590Settle.startRead c) Sen0590Settle.READY).
Proof.
  intros R1 R2 e rx a b c.
  rewrite (leaf_request_step R1 R2 e (LeafWetness.update a) rx eq_refl).
  rewrite (sen_request_step e (Sen0590.update b) rx eq_refl).
  rewrite (settle_request_step e (Sen0590Settle.update c) rx eq_refl).
  repeat split.
Qed.

(** Two [update()] calls in a row are one: no second transaction is queued
    behind the first. *)
Lemma update_idempotent :
  forall (a : LeafWetness.t) (b : Sen0590.t) (c : Sen0590Settle.t),
    LeafWetness.update (LeafWetness.update a) = LeafWetness.update a /\
    Sen0590.update (Sen0590.update b) = Sen0590.update b /\
    Sen0590Settle.update (Sen0590Settle.update c) = Sen0590Settle.update c.
Proof. intros a b c. repeat split. Qed.

(** ** READ while the byte count is not the expected one *)

Lemma concat_map_singleton {A B} (x : B) (l : list A) :
  concat (map (fun _ => [x]) l) = map (fun _ => x) l.
Proof. induction l as [|y l IH]; cbn; [reflexivity | now rewrite IH]. Qed.

Lemma published_available {A} (n : Z) (l : list A) :
  published (map (fun _ => Available n) l) = [].
Proof. induction l as [|y l IH]; cbn; [reflexivity | exact IH]. Qed.

Lemma no_read_available {A} (n : Z) (l : list A) :
  filter is_read (map (fun _ => Available n) l) = [].
Proof. induction l as [|y l IH]; cbn; [reflexivity | exact IH]. Qed.

Section ReadNotReady.

Variables REG_READ_ST REG_DATA : Z.

Lemma leaf_read_not_ready e d rx :
  LeafWetness.state d = LeafWetness.READ ->
  length rx <> 4%nat ->
  LeafWetness.loop REG_READ_ST REG_DATA e d rx =
  (d, rx, [Available (Z.of_nat (length rx))]).
Proof.
  intros Hs Hn. unfold LeafWetness.loop. rewrite Hs.
  unfold LeafWetness.loop_READ, bind, Wire.available.
  destruct (Z.eqb_spec (Z.of_nat (length rx)) 4) as [E|E]; [lia | reflexivity].
Qed.

Lemma sen_read_not_ready e d rx :
  Sen0590.state d = Sen0590.READ ->
  length rx <> 2%nat ->
  Sen0590.loop e d rx = (d, rx, [Available (Z.of_nat (length rx))]).
Proof.
  intros Hs Hn. unfold Sen0590.loop. rewrite Hs.
  unfold bind, Wire.available.
  destruct (Z.eqb_spec (Z.of_nat (length rx)) 2) as [E|E]; [lia | reflexivity].
Qed.

End ReadNotReady.

(** C9: in READ, while the number of buffered bytes is not the expected
    one (4 for the wetness driver, 2 for the availability-polled
    rangefinder), every [loop()] only asks [Wire.available()]: the driver
    and the buffer are unchanged, no byte is read, nothing is published,
    and this goes on for any number of calls, so the state stays READ
    until the count is right or [update()] is called. *)
Theorem C9_read_waits_for_exact_count :
  forall (REG_READ_ST REG_DATA : Z) (es : list env)
         (a : LeafWetness.t) (rxa : list Z) (b : Sen0590.t) (rxb : list Z),
    LeafWetness.state a = LeafWetness.READ -> length rxa <> 4%nat ->
    Sen0590.state b = Sen0590.READ -> length rxb <> 2%nat ->
    let ra := run (LeafWetness.loop REG_READ_ST REG_DATA) es a rxa in
    let rb := run Sen0590.loop es b rxb in
    (ra = (a, rxa, map (fun _ => Available (Z.of_nat (length rxa))) es) /\
     LeafWetness.state (driver_of ra) = LeafWetness.READ /\
     published (events_of ra) = [] /\ filter is_read (events_of ra) = []) /\
    (rb = (b, rxb, map (fun _ => Available (Z.of_nat (length rxb))) es) /\
     Sen0590.state (driver_of rb) = Sen0590.READ /\
     published (events_of rb) = [] /\ filter is_read (events_of rb) = []).
Proof.
  intros R1 R2 es a rxa b rxb Ha Hna Hb Hnb ra rb.
  assert (Era : ra = (a, rxa, map (fun _ => Available (Z.of_nat (length rxa))) es)).
  { subst ra. rewrite <- concat_map_singleton. apply run_stutter.
    intros e. apply leaf_read_not_ready; assumption. }
  assert (Erb : rb = (b, rxb, map (fun _ => Available (Z.of_nat (length rxb))) es)).
  { subst rb. rewrite <- concat_map_singleton. apply run_stutter.
    intros e. apply sen_read_not_ready; assumption. }
  rewrite Era, Erb. unfold driver_of, events_of. cbn [fst snd].
  rewrite !published_available, !no_read_available.
  repeat split; assumption.
Qed.

Lemma C9_read_waits_for_exact_count_witness :
  let es := [mkEnv 400 400 0 []; mkEnv 401 401 0 []; mkEnv 100000 100000 0 []] in
  let a := LeafWetness.mk 0 LeafWetness.READ in
  let b := Sen0590.mk 0 Sen0590.READ in
  LeafWetness.state a = LeafWetness.READ /\ length [0x10; 0x00; 0xC8] <> 4%nat /\
  Sen0590.state b = Sen0590.READ /\ length (@nil Z) <> 2%nat /\
  run (LeafWetness.loop 1 2) es a [0x10; 0x00; 0xC8] =
    (a, [0x10; 0x00; 0xC8], [Available 3; Available 3; Available 3]) /\
  run Sen0590.loop es b [] = (b, [], [Available 0; Available 0; Available 0]).
Proof.
  intros es a b.
  assert (Ha : LeafWetness.state a = LeafWetness.READ) by reflexivity.
  assert (Hna : length [0x10; 0x00; 0xC8] <> 4%nat) by (cbn; discriminate).
  assert (Hb : Sen0590.state b = Sen0590.READ) by reflexivity.
  assert (Hnb : length (@nil Z) <> 2%nat) by (cbn; discriminate).
  destruct (C9_read_waits_for_exact_count 1 2 es a _ b _ Ha Hna Hb Hnb)
    as ((HA & _) & (HB & _)).
  split; [exact Ha|]. split; [exact Hna|]. split; [exact Hb|]. split; [exact Hnb|].
  split; [exact HA | exact HB].
Defined.

(** ** READY: the read-address write *)

Section Ready.

Lemma sen_ready_step e d rx :
  Sen0590.state d = Sen0590.READY ->
  Sen0590.loop e d rx =
  (if ack e =? 0 then Sen0590.set_state d Sen0590.READ else d,
   if ack e =? 0 then firstn 2 (reply e) else rx,
   [BeginTransmission Sen0590.address; WireWrite 0x02; EndTransmission (ack e)]
     ++ (if ack e =? 0 then [RequestFrom Sen0590.address 2] else [])).
Proof.
  intros Hs. unfold Sen0590.loop. rewrite Hs.
  cbn. destruct (ack e =? 0); reflexivity.
Qed.

Lemma settle_ready_step e d rx :
  Sen0590Settle.state d = Sen0590Settle.READY ->
  Sen0590Settle.request_wait_period <= settle_request_elapsed e d ->
  Sen0590Settle.loop e d rx =
  (if ack e =? 0
   then Sen0590Settle.mk (Sen0590Settle.startRequest d) (millis2 e) Sen0590Settle.READ
   else d,
   rx,
   [BeginTransmission Sen0590Settle.address; WireWrite 0x02; EndTransmission (ack e)]).
Proof.
  intros Hs Hel. unfold Sen0590Settle.loop. rewrite Hs.
  fold (settle_request_elapsed e d). rewrite Z.gtb_ltb.
  destruct (Z.ltb_spec (settle_request_elapsed e d) Sen0590Settle.request_wait_period);
    [lia|].
  cbn. destruct (ack e =? 0); reflexivity.
Qed.

Lemma settle_ready_early e d rx :
  Sen0590Settle.state d = Sen0590Settle.READY ->
  settle_request_elapsed e d < Sen0590Settle.request_wait_period ->
  Sen0590Settle.loop e d rx = (d, rx, []).
Proof.
  intros Hs Hel. unfold Sen0590Settle.loop. rewrite Hs.
  fold (settle_request_elapsed e d). rewrite Z.gtb_ltb.
  destruct (Z.ltb_spec (settle_request_elapsed e d) Sen0590Settle.request_wait_period);
    [reflexivity | lia].
Qed.

(** The wetness driver never looks at the status. *)
Lemma leaf_ready_step REG_READ_ST REG_DATA e d rx :
  LeafWetness.state d = LeafWetness.READY ->
  LeafWetness.loop REG_READ_ST REG_DATA e d rx =
  let '(d', rx', evs) :=
    LeafWetness.loop_READ (LeafWetness.set_state d LeafWetness.READ)
                          (firstn 4 (reply e)) in
  (d', rx',
   [BeginTransmission LeafWetness.address; WireWrite REG_DATA;
    EndTransmission (ack e); RequestFrom LeafWetness.address 4] ++ evs).
Proof.
  intros Hs. unfold LeafWetness.loop. rewrite Hs.
  unfold bind, Wire.beginTransmission, Wire.write, Wire.endTransmission,
    Wire.requestFrom, emit, ret.
  cbv beta iota zeta.
  change (firstn (Z.to_nat 4) (reply e)) with (firstn 4 (reply e)).
  destruct (LeafWetness.loop_READ _ _) as [[d' rx'] evs]. reflexivity.
Qed.

End Ready.

(** C6 as stated, for every driver, fails for the wetness driver: with a failing status in READY it still requests 4 bytes,
    leaves READY, and even publishes when the 4 bytes arrive. *)
Lemma C6_wetness_counterexample :
  ~ (forall (e : env) (d : LeafWetness.t) (rx : list Z),
        LeafWetness.state d = LeafWetness.READY ->
        ack e <> 0 ->
        driver_of (LeafWetness.loop 0 0 e d rx) = d /\
        published (events_of (LeafWetness.loop 0 0 e d rx)) = []).
Proof.
  intros H.
  destruct (H (mkEnv 400 400 4 [0x10; 0x00; 0xC8; 0x00])
              (LeafWetness.mk 0 LeafWetness.READY) []) as [Hd _].
  - reflexivity.
  - discriminate.
  - vm_compute in Hd. discriminate Hd.
Qed.

(** C6 (amended): in the two rangefinder drivers, when [endTransmission()]
    of the read-address write returns a non-zero status (in the driver with
    two settle periods: once the request settle period has elapsed),
    [loop()] returns with every field of the driver and the receive buffer
    unchanged, having made only the three calls of that write and no
    publication; the next [loop()] issues the same write again (in the
    driver with two settle periods: as long as the elapsed time it computes
    is still at least [request_wait_period]), and enters READ when that
    one succeeds, [startRead] taking the [millis()] reading made after the
    successful write. *)
Theorem C6_rangefinder_write_failure_retried :
  forall (e e' : env) (rx : list Z) (b : Sen0590.t) (c : Sen0590Settle.t),
    Sen0590.state b = Sen0590.READY ->
    Sen0590Settle.state c = Sen0590Settle.READY ->
    Sen0590Settle.request_wait_period <= settle_request_elapsed e c ->
    ack e <> 0 ->
    let write st := [BeginTransmission 0x74; WireWrite 0x02; EndTransmission st] in
    (Sen0590.loop e b rx = (b, rx, write (ack e)) /\
     (exists tl,
        events_of (run Sen0590.loop [e; e'] b rx) = write (ack e) ++ write (ack e') ++ tl) /\
     (ack e' = 0 ->
        Sen0590.state (driver_of (run Sen0590.loop [e; e'] b rx)) = Sen0590.READ)) /\
    (Sen0590Settle.loop e c rx = (c, rx, write (ack e)) /\
     (Sen0590Settle.request_wait_period <= settle_request_elapsed e' c ->
        events_of (run Sen0590Settle.loop [e; e'] c rx) = write (ack e) ++ write (ack e') /\
        (ack e' = 0 ->
           driver_of (run Sen0590Settle.loop [e; e'] c rx) =
           Sen0590Settle.mk (Sen0590Settle.startRequest c) (millis2 e')
                            Sen0590Settle.READ))).
Proof.
  intros e e' rx b c Hb Hc Hel Hack write.
  assert (Hz : (ack e =? 0) = false) by (apply Z.eqb_neq; exact Hack).
  assert (HB : Sen0590.loop e b rx = (b, rx, write (ack e))).
  { rewrite (sen_ready_step e b rx Hb), Hz. reflexivity. }
  assert (HC : Sen0590Settle.loop e c rx = (c, rx, write (ack e))).
  { rewrite (settle_ready_step e c rx Hc Hel), Hz. reflexivity. }
  split; split; try assumption.
  - rewrite run_cons, HB. cbv beta iota.
    rewrite run_cons, (sen_ready_step e' b rx Hb). cbn [run ret].
    unfold events_of, driver_of. cbn [fst snd]. split.
    + exists (if ack e' =? 0 then [RequestFrom Sen0590.address 2] else []).
      rewrite app_nil_r. reflexivity.
    + intros E. rewrite E. reflexivity.
  - intros Hel'.
    rewrite run_cons, HC. cbv beta iota.
    rewrite run_cons, (settle_ready_step e' c rx Hc Hel'). cbn [run ret].
    unfold events_of, driver_of. cbn [fst snd]. split.
    + rewrite app_nil_r. reflexivity.
    + intros E. rewrite E. reflexivity.
Qed.

Lemma C6_rangefinder_write_failure_retried_witness :
  let e := mkEnv 60 60 2 [] in
  let e' := mkEnv 61 61 0 [1; 44] in
  let b := Sen0590.mk 5 Sen0590.READY in
  let c := Sen0590Settle.mk 5 0 Sen0590Settle.READY in
  Sen0590.state b = Sen0590.READY /\
  Sen0590Settle.state c = Sen0590Settle.READY /\
  Sen0590Settle.request_wait_period <= settle_request_elapsed e c /\
  ack e <> 0 /\
  Sen0590.loop e b [] =
    (b, [], [BeginTransmission 0x74; WireWrite 0x02; EndTransmission 2]) /\
  Sen0590Settle.loop e c [] =
    (c, [], [BeginTransmission 0x74; WireWrite 0x02; EndTransmission 2]).
Proof.
  intros e e' b c.
  assert (Hb : Sen0590.state b = Sen0590.READY) by reflexivity.
  assert (Hc : Sen0590Settle.state c = Sen0590Settle.READY) by reflexivity.
  assert (Hel : Sen0590Settle.request_wait_period <= settle_request_elapsed e c)
    by (vm_compute; discriminate).
  assert (Hack : ack e <> 0) by (cbn; discriminate).
  destruct (C6_rangefinder_write_failure_retried e e' [] b c Hb Hc Hel Hack)
    as ((HB & _) & (HC & _)).
  split; [exact Hb|]. split; [exact Hc|]. split; [exact Hel|]. split; [exact Hack|].
  split; [exact HB | exact HC].
Defined.

(** ** Raw bytes *)

Lemma to_byte_id b : is_byte b -> to_byte b = b.
Proof.
  intros Hb. unfold to_byte, is_byte in *.
  change 255 with (Z.ones 8).
  rewrite Z.land_ones by lia. apply Z.mod_small. exact Hb.
Qed.

(** [Wire.read()] returning [-1] on an empty buffer stores [0xFF]. *)
Lemma to_byte_minus_one : to_byte (-1) = 255.
Proof. reflexivity. Qed.

Lemma byte_bits_high b n : is_byte b -> 8 <= n -> Z.testbit b n = false.
Proof.
  intros [H0 H1] Hn.
  destruct (Z.eq_dec b 0) as [->|Hnz]; [apply Z.testbit_0_l|].
  apply Z.bits_above_log2; [exact H0|].
  assert (Z.log2 b < 8) by (apply Z.log2_lt_pow2; lia).
  lia.
Qed.

Lemma lor_bytes p0 p1 :
  is_byte p0 -> is_byte p1 -> Z.lor p0 (Z.shiftl p1 8) = p0 + 256 * p1.
Proof.
  intros H0 H1.
  assert (Hdisj : Z.land p0 (Z.shiftl p1 8) = 0).
  { apply Z.bits_inj'. intros n Hn.
    rewrite Z.land_spec, Z.bits_0.
    destruct (Z.lt_ge_cases n 8) as [Hlt|Hge].
    - rewrite Z.shiftl_spec_low by exact Hlt. apply andb_false_r.
    - rewrite (byte_bits_high p0 n H0 Hge). reflexivity. }
  pose proof (Z.add_lor_land p0 (Z.shiftl p1 8)) as Hadd.
  rewrite Hdisj, Z.add_0_r in Hadd. rewrite Hadd.
  rewrite Z.shiftl_mul_pow2 by lia. change (2 ^ 8) with 256. ring.
Qed.

(** The object representation read back as an [int16_t] is the
    little-endian two's complement reading of the two bytes. *)
Lemma int16_of_bytes_spec p0 p1 :
  is_byte p0 -> is_byte p1 -> int16_of_bytes p0 p1 = spec_int16_le p0 p1.
Proof.
  intros H0 H1. unfold int16_of_bytes, spec_int16_le.
  rewrite (lor_bytes p0 p1 H0 H1).
  set (u := p0 + 256 * p1).
  assert (Hu : 0 <= u < 65536) by (unfold is_byte in *; subst u; lia).
  rewrite Z.testbit_eqb by lia. change (2 ^ 15) with 32768.
  destruct (Z.lt_ge_cases u 32768) as [Hlt|Hge].
  - rewrite Z.div_small by lia. cbn.
    rewrite Z.mod_small by lia. lia.
  - assert (Hq : u / 32768 = 1) by (symmetry; apply Z.div_unique with (r := u - 32768); lia).
    rewrite Hq. cbn.
    replace (u + 32768) with (u - 32768 + 1 * 65536) by ring.
    rewrite Z.mod_add by lia. rewrite Z.mod_small by lia. lia.
Qed.

Lemma spec_int16_le_range lo hi : -32768 <= spec_int16_le lo hi < 32768.
Proof.
  unfold spec_int16_le.
  pose proof (Z.mod_pos_bound (lo + 256 * hi + 32768) 65536 eq_refl). lia.
Qed.

Lemma in_zrange n : forall lo x, lo <= x < lo + Z.of_nat n -> In x (zrange lo n).
Proof.
  induction n as [|n IH]; intros lo x Hx.
  - cbn in Hx. lia.
  - cbn [zrange]. destruct (Z.eq_dec lo x) as [->|Hne].
    + left. reflexivity.
    + right. apply IH. lia.
Qed.

(** Checked on each of the 65536 values of an [int16_t]. *)
Lemma value_of_close_all :
  forallb value_of_close (zrange (-32768) (Z.to_nat 65536)) = true.
Proof. vm_cast_no_check (eq_refl true). Qed.

Lemma value_of_accurate w :
  -32768 <= w < 32768 ->
  exists q, IEEE.SF2Q (LeafWetness.value_of w) = Some q /\
            (Qabs (q - (w # 100)) * inject_Z (2 ^ 24) <= Qabs (w # 100))%Q.
Proof.
  intros Hw.
  pose proof (proj1 (forallb_forall _ _) value_of_close_all w) as H.
  assert (Hin : In w (zrange (-32768) (Z.to_nat 65536))) by (apply in_zrange; lia).
  specialize (H Hin). unfold value_of_close in H.
  destruct (IEEE.SF2Q (LeafWetness.value_of w)) as [q|]; [|discriminate].
  exists q. split; [reflexivity|]. apply Qle_bool_iff. exact H.
Qed.

(** Checked on each distance two bytes can give. *)
Lemma f32_int_exact_all :
  forallb f32_int_exact (zrange 0 (Z.to_nat 65546)) = true.
Proof. vm_cast_no_check (eq_refl true). Qed.

Lemma f32_of_int_exact n :
  0 <= n < 65546 ->
  exists q, IEEE.SF2Q (IEEE.f32_of_int n) = Some q /\ (q == inject_Z n)%Q.
Proof.
  intros Hn.
  pose proof (proj1 (forallb_forall _ _) f32_int_exact_all n) as H.
  assert (Hin : In n (zrange 0 (Z.to_nat 65546))) by (apply in_zrange; lia).
  specialize (H Hin). unfold f32_int_exact in H.
  destruct (IEEE.SF2Q (IEEE.f32_of_int n)) as [q|]; [|discriminate].
  exists q. split; [reflexivity|]. apply Qeq_bool_iff. exact H.
Qed.

(** ** READ with the bytes at hand *)

Section ReadComplete.

Variables REG_READ_ST REG_DATA : Z.

Lemma leaf_read_complete e d b0 b1 b2 b3 :
  LeafWetness.state d = LeafWetness.READ ->
  LeafWetness.loop REG_READ_ST REG_DATA e d [b0; b1; b2; b3] =
  (LeafWetness.set_state d LeafWetness.IDLE, [],
   [Available 4;
    Read b0; Read b1;
    Publish wetness_sensor
      (LeafWetness.value_of (int16_of_bytes (to_byte b0) (to_byte b1)));
    Read b2; Read b3;
    Publish temperature_sensor
      (LeafWetness.value_of (int16_of_bytes (to_byte b2) (to_byte b3)))]).
Proof. intros Hs. unfold LeafWetness.loop. rewrite Hs. reflexivity. Qed.

Lemma sen_read_complete e d b0 b1 :
  Sen0590.state d = Sen0590.READ ->
  Sen0590.loop e d [b0; b1] =
  (d, [],
   [Available 2; Read b0; Read b1;
    Publish this_sensor (IEEE.f32_of_int (Sen0590.distance_of b0 b1))]).
Proof. intros Hs. unfold Sen0590.loop. rewrite Hs. reflexivity. Qed.

Lemma settle_read_early e d rx :
  Sen0590Settle.state d = Sen0590Settle.READ ->
  settle_read_elapsed e d < Sen0590Settle.read_wait_period ->
  Sen0590Settle.loop e d rx = (d, rx, []).
Proof.
  intros Hs Hel. unfold Sen0590Settle.loop. rewrite Hs.
  fold (settle_read_elapsed e d). rewrite Z.gtb_ltb.
  destruct (Z.ltb_spec (settle_read_elapsed e d) Sen0590Settle.read_wait_period);
    [reflexivity | lia].
Qed.

Lemma settle_read_complete e d rx :
  Sen0590Settle.state d = Sen0590Settle.READ ->
  Sen0590Settle.read_wait_period <= settle_read_elapsed e d ->
  Sen0590Settle.loop e d rx =
  (Sen0590Settle.set_state d Sen0590Settle.IDLE, [],
   [RequestFrom Sen0590Settle.address 2;
    Read (nth 0 (reply e) (-1)); Read (nth 1 (reply e) (-1));
    Publish this_sensor
      (IEEE.f32_of_int
         (Sen0590Settle.distance_of (nth 0 (reply e) (-1)) (nth 1 (reply e) (-1))))]).
Proof.
  intros Hs Hel. unfold Sen0590Settle.loop. rewrite Hs.
  fold (settle_read_elapsed e d). rewrite Z.gtb_ltb.
  destruct (Z.ltb_spec (settle_read_elapsed e d) Sen0590Settle.read_wait_period);
    [lia|].
  unfold bind, Wire.requestFrom, Wire.read, publish_state, emit, ret.
  change (Z.to_nat 2) with 2%nat.
  destruct (reply e) as [|x0 [|x1 r]]; reflexivity.
Qed.

(** Outside IDLE the availability-polled rangefinder has no way back to
    IDLE. *)
Lemma sen_loop_not_IDLE e d rx :
  Sen0590.state d <> Sen0590.IDLE ->
  Sen0590.state (driver_of (Sen0590.loop e d rx)) <> Sen0590.IDLE.
Proof.
  intros Hd. unfold Sen0590.loop.
  destruct (Sen0590.state d) eqn:Hs; cbn; try discriminate.
  - destruct (_ <? _); cbn; [discriminate | congruence].
  - destruct (ack e =? 0); cbn; [discriminate | congruence].
  - unfold bind, Wire.available.
    destruct (_ =? 2); cbn.
    + destruct rx as [|x0 [|x1 r]]; cbn; congruence.
    + congruence.
  - congruence.
Qed.

End ReadComplete.

(** C3, evaluated on the availability-polled rangefinder: armed at 0 ms,
    the driver is in READ with the two bytes [0x01], [0x2C] buffered; the
    [loop()] reads them and publishes 310, and the state it leaves behind
    is READ, not IDLE; no later [loop()] reaches IDLE either.  (The wetness
    driver and the rangefinder with two settle periods assign IDLE at this
    point, see [leaf_read_complete] and [settle_read_complete].) *)
Theorem C3_sen0590_read_leaves_state_READ :
  forall (e : env),
    Sen0590.loop e (Sen0590.mk 0 Sen0590.READ) [0x01; 0x2C] =
      (Sen0590.mk 0 Sen0590.READ, [],
       [Available 2; Read 0x01; Read 0x2C;
        Publish this_sensor (IEEE.f32_of_int 310)]) /\
    Sen0590.state (driver_of (Sen0590.loop e (Sen0590.mk 0 Sen0590.READ) [0x01; 0x2C]))
      <> Sen0590.IDLE /\
    forall es,
      Sen0590.state
        (driver_of (run Sen0590.loop (e :: es) (Sen0590.mk 0 Sen0590.READ) [0x01; 0x2C]))
      <> Sen0590.IDLE.
Proof.
  intros e. split; [reflexivity|]. split; [cbn; discriminate|].
  intros es.
  apply (run_preserves_from Sen0590.loop (fun d => Sen0590.state d <> Sen0590.IDLE)).
  - intros e0 d rx. apply sen_loop_not_IDLE.
  - cbn. discriminate.
Qed.

(** C4: with exactly the four bytes [b0 b1 b2 b3] buffered, [loop()] of the
    wetness driver in READ reads them in order, takes [b0 b1] and [b2 b3]
    as little-endian signed 16-bit integers [w] and [t], and makes exactly
    two publications: the [float] for [w / 100.0] on the wetness sensor,
    then the [float] for [t / 100.0] on the temperature sensor; each
    published float lies within a relative distance of [2^-24] of the
    exact quotient.  For [0x10 0x00 0xC8 0x00] the wetness published is the
    float nearest to 0.16 and the temperature is exactly 2. *)
Theorem C4_wetness_decode :
  forall (REG_READ_ST REG_DATA : Z) (e : env) (d : LeafWetness.t) (b0 b1 b2 b3 : Z),
    LeafWetness.state d = LeafWetness.READ ->
    is_byte b0 -> is_byte b1 -> is_byte b2 -> is_byte b3 ->
    let w := spec_int16_le b0 b1 in
    let t := spec_int16_le b2 b3 in
    let r := LeafWetness.loop REG_READ_ST REG_DATA e d [b0; b1; b2; b3] in
    r = (LeafWetness.set_state d LeafWetness.IDLE, [],
         [Available 4;
          Read b0; Read b1; Publish wetness_sensor (LeafWetness.value_of w);
          Read b2; Read b3; Publish temperature_sensor (LeafWetness.value_of t)]) /\
    published (events_of r) =
      [Publish wetness_sensor (LeafWetness.value_of w);
       Publish temperature_sensor (LeafWetness.value_of t)] /\
    (exists qw qt,
       IEEE.SF2Q (LeafWetness.value_of w) = Some qw /\
       IEEE.SF2Q (LeafWetness.value_of t) = Some qt /\
       (Qabs (qw - (w # 100)) * inject_Z (2 ^ 24) <= Qabs (w # 100))%Q /\
       (Qabs (qt - (t # 100)) * inject_Z (2 ^ 24) <= Qabs (t # 100))%Q) /\
    (spec_int16_le 0x10 0x00 = 16 /\ spec_int16_le 0xC8 0x00 = 200 /\
     IEEE.SF2Q (LeafWetness.value_of 16) = Some (10737418 # 67108864)%Q /\
     (Qabs ((10737418 # 67108864) - (16 # 100)) <= 1 # 134217728)%Q /\
     IEEE.SF2Q (LeafWetness.value_of 200) = Some (8388608 # 4194304)%Q /\
     ((8388608 # 4194304) == 2)%Q).
Proof.
  intros R1 R2 e d b0 b1 b2 b3 Hs H0 H1 H2 H3 w t r.
  assert (Hr : r = (LeafWetness.set_state d LeafWetness.IDLE, [],
                    [Available 4;
                     Read b0; Read b1; Publish wetness_sensor (LeafWetness.value_of w);
                     Read b2; Read b3;
                     Publish temperature_sensor (LeafWetness.value_of t)])).
  { subst r w t. rewrite (leaf_read_complete R1 R2 e d b0 b1 b2 b3 Hs).
    rewrite !to_byte_id by assumption.
    rewrite !int16_of_bytes_spec by assumption. reflexivity. }
  split; [exact Hr|]. split; [rewrite Hr; reflexivity|]. split.
  - destruct (value_of_accurate w (spec_int16_le_range b0 b1)) as (qw & Hqw & Hw).
    destruct (value_of_accurate t (spec_int16_le_range b2 b3)) as (qt & Hqt & Ht).
    exists qw, qt. repeat split; assumption.
  - split; [reflexivity|]. split; [reflexivity|].
    split; [vm_compute; reflexivity|].
    split; [vm_compute; discriminate|].
    split; [vm_compute; reflexivity|].
    vm_compute. reflexivity.
Qed.

Lemma C4_wetness_decode_witness :
  let d := LeafWetness.mk 0 LeafWetness.READ in
  let e := mkEnv 350 350 0 [] in
  LeafWetness.state d = LeafWetness.READ /\
  is_byte 0x10 /\ is_byte 0x00 /\ is_byte 0xC8 /\
  published (events_of (LeafWetness.loop 1 2 e d [0x10; 0x00; 0xC8; 0x00])) =
    [Publish wetness_sensor (LeafWetness.value_of 16);
     Publish temperature_sensor (LeafWetness.value_of 200)].
Proof.
  intros d e.
  assert (Hs : LeafWetness.state d = LeafWetness.READ) by reflexivity.
  assert (H10 : is_byte 0x10) by (split; [discriminate | reflexivity]).
  assert (H00 : is_byte 0x00) by (split; [discriminate | reflexivity]).
  assert (HC8 : is_byte 0xC8) by (split; [discriminate | reflexivity]).
  destruct (C4_wetness_decode 1 2 e d 0x10 0x00 0xC8 0x00 Hs H10 H00 HC8 H00)
    as (_ & Hp & _).
  split; [exact Hs|]. split; [exact H10|]. split; [exact H00|]. split; [exact HC8|].
  exact Hp.
Defined.

(** C5: both rangefinder drivers, once they read the two bytes [high] and
    [low] (each in 0..255), publish one value, the [float] conversion of
    [high * 256 + low + 10]; that float denotes exactly this integer, and
    no condition on the bytes guards the publication.  For [0x01 0x2C] the
    distance is 310. *)
Theorem C5_distance_decode :
  forall (e : env) (b : Sen0590.t) (c : Sen0590Settle.t) (rx rest : list Z)
         (high low : Z),
    is_byte high -> is_byte low ->
    Sen0590.state b = Sen0590.READ ->
    Sen0590Settle.state c = Sen0590Settle.READ ->
    Sen0590Settle.read_wait_period <= settle_read_elapsed e c ->
    reply e = high :: low :: rest ->
    let distance := spec_uint16_be high low + 10 in
    published (events_of (Sen0590.loop e b [high; low])) =
      [Publish this_sensor (IEEE.f32_of_int distance)] /\
    published (events_of (Sen0590Settle.loop e c rx)) =
      [Publish this_sensor (IEEE.f32_of_int distance)] /\
    (exists q, IEEE.SF2Q (IEEE.f32_of_int distance) = Some q /\
               (q == inject_Z distance)%Q) /\
    spec_uint16_be 0x01 0x2C + 10 = 310.
Proof.
  intros e b c rx rest high low Hh Hl Hb Hc Hel Hreply distance.
  split; [|split; [|split]].
  - rewrite (sen_read_complete e b high low Hb). reflexivity.
  - rewrite (settle_read_complete e c rx Hc Hel), Hreply. reflexivity.
  - apply f32_of_int_exact. unfold is_byte, spec_uint16_be in *. subst distance. lia.
  - reflexivity.
Qed.

Lemma C5_distance_decode_witness :
  let e := mkEnv 100 100 0 [0x01; 0x2C] in
  let b := Sen0590.mk 0 Sen0590.READ in
  let c := Sen0590Settle.mk 0 70 Sen0590Settle.READ in
  is_byte 0x01 /\ is_byte 0x2C /\
  Sen0590.state b = Sen0590.READ /\
  Sen0590Settle.state c = Sen0590Settle.READ /\
  Sen0590Settle.read_wait_period <= settle_read_elapsed e c /\
  reply e = [0x01; 0x2C] /\
  published (events_of (Sen0590.loop e b [0x01; 0x2C])) =
    [Publish this_sensor (IEEE.f32_of_int 310)] /\
  published (events_of (Sen0590Settle.loop e c [])) =
    [Publish this_sensor (IEEE.f32_of_int 310)].
Proof.
  intros e b c.
  assert (H1 : is_byte 0x01) by (split; [discriminate | reflexivity]).
  assert (H2 : is_byte 0x2C) by (split; [discriminate | reflexivity]).
  assert (Hb : Sen0590.state b = Sen0590.READ) by reflexivity.
  assert (Hc : Sen0590Settle.state c = Sen0590Settle.READ) by reflexivity.
  assert (Hel : Sen0590Settle.read_wait_period <= settle_read_elapsed e c)
    by (vm_compute; discriminate).
  assert (Hr : reply e = [0x01; 0x2C]) by reflexivity.
  destruct (C5_distance_decode e b c [] [] 0x01 0x2C H1 H2 Hb Hc Hel Hr)
    as (HB & HC & _).
  split; [exact H1|]. split; [exact H2|]. split; [exact Hb|]. split; [exact Hc|].
  split; [exact Hel|]. split; [exact Hr|]. split; [exact HB | exact HC].
Defined.

(** C7: in READ, the rangefinder with two settle periods compares the time
    elapsed since [startRead] with [read_wait_period] (20 ms).  Below it,
    [loop()] changes nothing and makes no call.  From 20 ms on it requests
    2 bytes, calls [Wire.read()] twice without asking [Wire.available()]
    (a missing byte reads as -1), publishes the distance computed from
    whatever it read, and goes to IDLE. *)
Theorem C7_settle_read_is_time_based :
  forall (e : env) (c : Sen0590Settle.t) (rx : list Z),
    Sen0590Settle.state c = Sen0590Settle.READ ->
    let buf0 := nth 0 (reply e) (-1) in
    let buf1 := nth 1 (reply e) (-1) in
    let r := Sen0590Settle.loop e c rx in
    Sen0590Settle.read_wait_period = 20 /\
    (Sen0590Settle.read_wait_period <= settle_read_elapsed e c ->
       r = (Sen0590Settle.mk (Sen0590Settle.startRequest c) (Sen0590Settle.startRead c)
                             Sen0590Settle.IDLE, [],
            [RequestFrom 0x74 2; Read buf0; Read buf1;
             Publish this_sensor (IEEE.f32_of_int (buf0 * 256 + buf1 + 10))]) /\
       filter is_available (events_of r) = []) /\
    (settle_read_elapsed e c < Sen0590Settle.read_wait_period ->
       r = (c, rx, [])).
Proof.
  intros e c rx Hs buf0 buf1 r. split; [reflexivity|]. split.
  - intros Hel. subst r. rewrite (settle_read_complete e c rx Hs Hel).
    split; reflexivity.
  - intros Hel. apply settle_read_early; assumption.
Qed.

Lemma C7_settle_read_is_time_based_witness :
  let c := Sen0590Settle.mk 0 100 Sen0590Settle.READ in
  Sen0590Settle.state c = Sen0590Settle.READ /\
  Sen0590Settle.loop (mkEnv 119 119 0 [0x01; 0x2C]) c [] = (c, [], []) /\
  Sen0590Settle.loop (mkEnv 120 120 0 [0x01; 0x2C]) c [] =
    (Sen0590Settle.mk 0 100 Sen0590Settle.IDLE, [],
     [RequestFrom 0x74 2; Read 0x01; Read 0x2C;
      Publish this_sensor (IEEE.f32_of_int 310)]) /\
  Sen0590Settle.loop (mkEnv 120 120 0 []) c [] =
    (Sen0590Settle.mk 0 100 Sen0590Settle.IDLE, [],
     [RequestFrom 0x74 2; Read (-1); Read (-1);
      Publish this_sensor (IEEE.f32_of_int (-247))]).
Proof.
  intros c.
  assert (Hs : Sen0590Settle.state c = Sen0590Settle.READ) by reflexivity.
  split; [exact Hs|]. split; [|split].
  - apply (C7_settle_read_is_time_based (mkEnv 119 119 0 [0x01; 0x2C]) c [] Hs).
    vm_compute. reflexivity.
  - apply (C7_settle_read_is_time_based (mkEnv 120 120 0 [0x01; 0x2C]) c [] Hs).
    vm_compute. discriminate.
  - apply (C7_settle_read_is_time_based (mkEnv 120 120 0 []) c [] Hs).
    vm_compute. discriminate.
Defined.

(** ** A whole transaction *)

(** The wetness driver from [update()] at 0 ms to the publication: still
    WAITING at 100 ms and at 300 ms, READY at 350 ms, and the next
    [loop()] requests the four bytes, finds them and publishes. *)
Example leaf_transaction :
  let es := [mkEnv 0 0 0 []; mkEnv 100 100 0 []; mkEnv 300 300 0 []; mkEnv 350 350 0 [];
             mkEnv 351 351 0 [0x10; 0x00; 0xC8; 0x00]] in
  run (LeafWetness.loop 1 2) es (LeafWetness.update LeafWetness.init) [] =
  (LeafWetness.mk 0 LeafWetness.IDLE, [],
   [BeginTransmission 0x61; WireWrite 1; EndTransmission 0;
    BeginTransmission 0x61; WireWrite 2; EndTransmission 0; RequestFrom 0x61 4;
    Available 4;
    Read 0x10; Read 0x00; Publish wetness_sensor (LeafWetness.value_of 16);
    Read 0xC8; Read 0x00; Publish temperature_sensor (LeafWetness.value_of 200)]).
Proof. vm_compute. reflexivity. Qed.

(** The rangefinder with two settle periods, with one failed read-address
    write on the way; the read settle runs from the second [millis()]
    reading of the successful READY call (1052), so the call at 1071 still
    waits. *)
Example settle_transaction :
  let es := [mkEnv 1000 1000 0 []; mkEnv 1049 1049 0 []; mkEnv 1050 1050 2 []; mkEnv 1051 1052 0 [];
             mkEnv 1071 1071 0 []; mkEnv 1072 1072 0 [0x01; 0x2C]] in
  run Sen0590Settle.loop es (Sen0590Settle.update Sen0590Settle.init) [] =
  (Sen0590Settle.mk 1000 1052 Sen0590Settle.IDLE, [],
   [BeginTransmission 0x74; WireWrite 0x10; WireWrite 0xB0; EndTransmission 0;
    BeginTransmission 0x74; WireWrite 0x02; EndTransmission 2;
    BeginTransmission 0x74; WireWrite 0x02; EndTransmission 0;
    RequestFrom 0x74 2; Read 0x01; Read 0x2C;
    Publish this_sensor (IEEE.f32_of_int 310)]).
Proof. vm_compute. reflexivity. Qed.

(** * Further properties of the drivers *)

(** ** The shape of every [loop()] *)

Section LoopShape.

Variables REG_READ_ST REG_DATA : Z.

(** What the statements under [case READ:] of the wetness driver do, for
    any buffer. *)
Lemma leaf_loop_READ_cases d rx :
  (exists b0 b1 b2 b3,
      rx = [b0; b1; b2; b3] /\
      LeafWetness.loop_READ d rx =
      (LeafWetness.set_state d LeafWetness.IDLE, [],
       [Available 4;
        Read b0; Read b1;
        Publish wetness_sensor
          (LeafWetness.value_of (int16_of_bytes (to_byte b0) (to_byte b1)));
        Read b2; Read b3;
        Publish temperature_sensor
          (LeafWetness.value_of (int16_of_bytes (to_byte b2) (to_byte b3)))]))
  \/ (length rx <> 4%nat /\
      LeafWetness.loop_READ d rx = (d, rx, [Available (Z.of_nat (length rx))])).
Proof.
  destruct (Nat.eq_dec (length rx) 4) as [E|E].
  - left. destruct rx as [|b0 [|b1 [|b2 [|b3 [|b4 r]]]]]; try discriminate E.
    exists b0, b1, b2, b3. split; reflexivity.
  - right. split; [exact E|].
    unfold LeafWetness.loop_READ, bind, Wire.available.
    destruct (Z.eqb_spec (Z.of_nat (length rx)) 4) as [E'|E']; [lia | reflexivity].
Qed.

Lemma sen_loop_READ_cases e d rx :
  Sen0590.state d = Sen0590.READ ->
  (exists b0 b1,
      rx = [b0; b1] /\
      Sen0590.loop e d rx =
      (d, [], [Available 2; Read b0; Read b1;
               Publish this_sensor (IEEE.f32_of_int (Sen0590.distance_of b0 b1))]))
  \/ (length rx <> 2%nat /\
      Sen0590.loop e d rx = (d, rx, [Available (Z.of_nat (length rx))])).
Proof.
  intros Hs. destruct (Nat.eq_dec (length rx) 2) as [E|E].
  - left. destruct rx as [|b0 [|b1 [|b2 r]]]; try discriminate E.
    exists b0, b1. split; [reflexivity | apply sen_read_complete, Hs].
  - right. split; [exact E | apply sen_read_not_ready; assumption].
Qed.

End LoopShape.

(** X1: the enumerator value of the state never decreases across a
    [loop()], nor across any series of them: REQUEST, WAITING, READY, READ,
    IDLE are passed in declaration order, and only [update()] goes back. *)
Theorem loop_state_never_goes_back :
  forall (REG_READ_ST REG_DATA : Z) (es : list env) (rx : list Z)
         (a : LeafWetness.t) (b : Sen0590.t) (c : Sen0590Settle.t),
    leaf_state_num (LeafWetness.state a) <=
      leaf_state_num
        (LeafWetness.state
           (driver_of (run (LeafWetness.loop REG_READ_ST REG_DATA) es a rx))) /\
    sen_state_num (Sen0590.state b) <=
      sen_state_num (Sen0590.state (driver_of (run Sen0590.loop es b rx))) /\
    settle_state_num (Sen0590Settle.state c) <=
      settle_state_num
        (Sen0590Settle.state (driver_of (run Sen0590Settle.loop es c rx))).
Proof.
  intros R1 R2 es rx a b c. split; [|split].
  - apply (run_preserves_from (LeafWetness.loop R1 R2)
             (fun d => leaf_state_num (LeafWetness.state a)
                       <= leaf_state_num (LeafWetness.state d))); [|lia].
    intros e d rx0 Hd.
    apply Z.le_trans with (1 := Hd). clear Hd.
    unfold LeafWetness.loop.
    destruct (LeafWetness.state d) eqn:Hs.
    + cbn. lia.
    + destruct (_ <? _); cbn; rewrite ?Hs; cbn; lia.
    + unfold bind, Wire.beginTransmission, Wire.write, Wire.endTransmission,
        Wire.requestFrom, emit, ret. cbv beta iota zeta.
      destruct (leaf_loop_READ_cases (LeafWetness.set_state d LeafWetness.READ)
                  (firstn (Z.to_nat 4) (reply e)))
        as [(b0 & b1 & b2 & b3 & _ & ->) | (_ & ->)]; cbn; lia.
    + destruct (leaf_loop_READ_cases d rx0)
        as [(b0 & b1 & b2 & b3 & _ & ->) | (_ & ->)]; cbn; rewrite ?Hs; cbn; lia.
    + cbn. rewrite Hs. cbn. lia.
  - apply (run_preserves_from Sen0590.loop
             (fun d => sen_state_num (Sen0590.state b)
                       <= sen_state_num (Sen0590.state d))); [|lia].
    intros e d rx0 Hd.
    apply Z.le_trans with (1 := Hd). clear Hd.
    destruct (Sen0590.state d) eqn:Hs.
    + rewrite (sen_request_step e d rx0 Hs). cbn. lia.
    + rewrite (sen_waiting_step e d rx0 Hs).
      destruct (_ <? _); cbn; rewrite ?Hs; cbn; lia.
    + rewrite (sen_ready_step e d rx0 Hs).
      destruct (ack e =? 0); cbn; rewrite ?Hs; cbn; lia.
    + destruct (sen_loop_READ_cases e d rx0 Hs) as [(b0 & b1 & _ & ->) | (_ & ->)];
        cbn; rewrite Hs; cbn; lia.
    + rewrite (sen_idle_step e d rx0 Hs). cbn. rewrite Hs. cbn. lia.
  - apply (run_preserves_from Sen0590Settle.loop
             (fun d => settle_state_num (Sen0590Settle.state c)
                       <= settle_state_num (Sen0590Settle.state d))); [|lia].
    intros e d rx0 Hd.
    apply Z.le_trans with (1 := Hd). clear Hd.
    destruct (Sen0590Settle.state d) eqn:Hs.
    + rewrite (settle_request_step e d rx0 Hs). cbn. lia.
    + destruct (Z.lt_ge_cases (settle_request_elapsed e d)
                  Sen0590Settle.request_wait_period) as [Hel|Hel].
      * rewrite (settle_ready_early e d rx0 Hs Hel). cbn. rewrite Hs. cbn. lia.
      * rewrite (settle_ready_step e d rx0 Hs Hel).
        destruct (ack e =? 0); cbn; rewrite ?Hs; cbn; lia.
    + destruct (Z.lt_ge_cases (settle_read_elapsed e d)
                  Sen0590Settle.read_wait_period) as [Hel|Hel].
      * rewrite (settle_read_early e d rx0 Hs Hel). cbn. rewrite Hs. cbn. lia.
      * rewrite (settle_read_complete e d rx0 Hs Hel). cbn. lia.
    + rewrite (settle_idle_step e d rx0 Hs). cbn. rewrite Hs. cbn. lia.
Qed.

(** X2: [startRequest] is written by [loop()] in REQUEST only, where it
    takes the current [millis()]; in every other state, whatever the bus
    answers, it keeps its value.  [startRead] of the driver with two settle
    periods is written only by the READY step whose read-address write
    succeeds, and takes the second [millis()] reading of that call, made
    after the write. *)
Theorem timers_written_only_on_phase_entry :
  forall (REG_READ_ST REG_DATA : Z) (e : env) (rx : list Z)
         (a : LeafWetness.t) (b : Sen0590.t) (c : Sen0590Settle.t),
    LeafWetness.startRequest (driver_of (LeafWetness.loop REG_READ_ST REG_DATA e a rx)) =
      (match LeafWetness.state a with
       | LeafWetness.REQUEST => millis e
       | _ => LeafWetness.startRequest a
       end) /\
    Sen0590.startRequest (driver_of (Sen0590.loop e b rx)) =
      (match Sen0590.state b with
       | Sen0590.REQUEST => millis e
       | _ => Sen0590.startRequest b
       end) /\
    Sen0590Settle.startRequest (driver_of (Sen0590Settle.loop e c rx)) =
      (match Sen0590Settle.state c with
       | Sen0590Settle.REQUEST => millis e
       | _ => Sen0590Settle.startRequest c
       end) /\
    Sen0590Settle.startRead (driver_of (Sen0590Settle.loop e c rx)) =
      (match Sen0590Settle.state c with
       | Sen0590Settle.READY =>
           if (settle_request_elapsed e c <? Sen0590Settle.request_wait_period)
              || negb (ack e =? 0)
           then Sen0590Settle.startRead c
           else millis2 e
       | _ => Sen0590Settle.startRead c
       end).
Proof.
  intros R1 R2 e rx a b c. split; [|split; [|split]].
  - unfold LeafWetness.loop.
    destruct (LeafWetness.state a) eqn:Hs.
    + reflexivity.
    + destruct (_ <? _); reflexivity.
    + unfold bind, Wire.beginTransmission, Wire.write, Wire.endTransmission,
        Wire.requestFrom, emit, ret. cbv beta iota zeta.
      destruct (leaf_loop_READ_cases (LeafWetness.set_state a LeafWetness.READ)
                  (firstn (Z.to_nat 4) (reply e)))
        as [(b0 & b1 & b2 & b3 & _ & ->) | (_ & ->)]; reflexivity.
    + destruct (leaf_loop_READ_cases a rx)
        as [(b0 & b1 & b2 & b3 & _ & ->) | (_ & ->)]; reflexivity.
    + reflexivity.
  - destruct (Sen0590.state b) eqn:Hs.
    + rewrite (sen_request_step e b rx Hs). reflexivity.
    + rewrite (sen_waiting_step e b rx Hs). destruct (_ <? _); reflexivity.
    + rewrite (sen_ready_step e b rx Hs). destruct (ack e =? 0); reflexivity.
    + destruct (sen_loop_READ_cases e b rx Hs) as [(b0 & b1 & _ & ->) | (_ & ->)];
        reflexivity.
    + rewrite (sen_idle_step e b rx Hs). reflexivity.
  - destruct (Sen0590Settle.state c) eqn:Hs.
    + rewrite (settle_request_step e c rx Hs). reflexivity.
    + destruct (Z.lt_ge_cases (settle_request_elapsed e c)
                  Sen0590Settle.request_wait_period) as [Hel|Hel].
      * rewrite (settle_ready_early e c rx Hs Hel). reflexivity.
      * rewrite (settle_ready_step e c rx Hs Hel).
        destruct (ack e =? 0); reflexivity.
    + destruct (Z.lt_ge_cases (settle_read_elapsed e c)
                  Sen0590Settle.read_wait_period) as [Hel|Hel].
      * rewrite (settle_read_early e c rx Hs Hel). reflexivity.
      * rewrite (settle_read_complete e c rx Hs Hel). reflexivity.
    + rewrite (settle_idle_step e c rx Hs). reflexivity.
  - destruct (Sen0590Settle.state c) eqn:Hs.
    + rewrite (settle_request_step e c rx Hs). reflexivity.
    + destruct (Z.ltb_spec (settle_request_elapsed e c)
                  Sen0590Settle.request_wait_period) as [Hel|Hel].
      * rewrite (settle_ready_early e c rx Hs Hel). reflexivity.
      * rewrite (settle_ready_step e c rx Hs Hel).
        destruct (ack e =? 0); reflexivity.
    + destruct (Z.lt_ge_cases (settle_read_elapsed e c)
                  Sen0590Settle.read_wait_period) as [Hel|Hel].
      * rewrite (settle_read_early e c rx Hs Hel). reflexivity.
      * rewrite (settle_read_complete e c rx Hs Hel). reflexivity.
    + rewrite (settle_idle_step e c rx Hs). reflexivity.
Qed.

(** X3: whatever the state, the clock and the bus, one [loop()] of the
    wetness driver publishes either nothing or exactly one wetness value
    followed by exactly one temperature value, never one without the
    other; one [loop()] of either rangefinder publishes at most one
    distance. *)
Theorem publications_per_loop :
  forall (REG_READ_ST REG_DATA : Z) (e : env) (rx : list Z)
         (a : LeafWetness.t) (b : Sen0590.t) (c : Sen0590Settle.t),
    (published (events_of (LeafWetness.loop REG_READ_ST REG_DATA e a rx)) = [] \/
     exists w t,
       published (events_of (LeafWetness.loop REG_READ_ST REG_DATA e a rx)) =
       [Publish wetness_sensor w; Publish temperature_sensor t]) /\
    (published (events_of (Sen0590.loop e b rx)) = [] \/
     exists v, published (events_of (Sen0590.loop e b rx)) = [Publish this_sensor v]) /\
    (published (events_of (Sen0590Settle.loop e c rx)) = [] \/
     exists v,
       published (events_of (Sen0590Settle.loop e c rx)) = [Publish this_sensor v]).
Proof.
  intros R1 R2 e rx a b c. split; [|split].
  - unfold LeafWetness.loop.
    destruct (LeafWetness.state a) eqn:Hs.
    + left. reflexivity.
    + left. destruct (_ <? _); reflexivity.
    + unfold bind, Wire.beginTransmission, Wire.write, Wire.endTransmission,
        Wire.requestFrom, emit, ret. cbv beta iota zeta.
      destruct (leaf_loop_READ_cases (LeafWetness.set_state a LeafWetness.READ)
                  (firstn (Z.to_nat 4) (reply e)))
        as [(b0 & b1 & b2 & b3 & _ & ->) | (_ & ->)].
      * right. eexists _, _. reflexivity.
      * left. reflexivity.
    + destruct (leaf_loop_READ_cases a rx)
        as [(b0 & b1 & b2 & b3 & _ & ->) | (_ & ->)].
      * right. eexists _, _. reflexivity.
      * left. reflexivity.
    + left. reflexivity.
  - destruct (Sen0590.state b) eqn:Hs.
    + left. rewrite (sen_request_step e b rx Hs). reflexivity.
    + left. rewrite (sen_waiting_step e b rx Hs). reflexivity.
    + left. rewrite (sen_ready_step e b rx Hs). destruct (ack e =? 0); reflexivity.
    + destruct (sen_loop_READ_cases e b rx Hs) as [(b0 & b1 & _ & ->) | (_ & ->)].
      * right. eexists. reflexivity.
      * left. reflexivity.
    + left. rewrite (sen_idle_step e b rx Hs). reflexivity.
  - destruct (Sen0590Settle.state c) eqn:Hs.
    + left. rewrite (settle_request_step e c rx Hs). reflexivity.
    + left. destruct (Z.lt_ge_cases (settle_request_elapsed e c)
                        Sen0590Settle.request_wait_period) as [Hel|Hel].
      * rewrite (settle_ready_early e c rx Hs Hel). reflexivity.
      * rewrite (settle_ready_step e c rx Hs Hel). reflexivity.
    + destruct (Z.lt_ge_cases (settle_read_elapsed e c)
                  Sen0590Settle.read_wait_period) as [Hel|Hel].
      * left. rewrite (settle_read_early e c rx Hs Hel). reflexivity.
      * right. rewrite (settle_read_complete e c rx Hs Hel). eexists. reflexivity.
    + left. rewrite (settle_idle_step e c rx Hs). reflexivity.
Qed.

(** X4: one [loop()] never makes more than one bus transmission nor more
    than one read request, every [beginTransmission] it makes is closed by
    an [endTransmission] in the same call, and the number of calls it makes
    on the bus and on the sensors is bounded (11, 5 and 4 for the three
    drivers): no [loop()] waits on the bus. *)
Theorem loop_bus_use_is_bounded :
  forall (REG_READ_ST REG_DATA : Z) (e : env) (rx : list Z)
         (a : LeafWetness.t) (b : Sen0590.t) (c : Sen0590Settle.t),
    let ea := events_of (LeafWetness.loop REG_READ_ST REG_DATA e a rx) in
    let eb := events_of (Sen0590.loop e b rx) in
    let ec := events_of (Sen0590Settle.loop e c rx) in
    ((count is_end_transmission ea <= 1)%nat /\
     count is_begin_transmission ea = count is_end_transmission ea /\
     (count is_request_from ea <= 1)%nat /\ (length ea <= 11)%nat) /\
    ((count is_end_transmission eb <= 1)%nat /\
     count is_begin_transmission eb = count is_end_transmission eb /\
     (count is_request_from eb <= 1)%nat /\ (length eb <= 5)%nat) /\
    ((count is_end_transmission ec <= 1)%nat /\
     count is_begin_transmission ec = count is_end_transmission ec /\
     (count is_request_from ec <= 1)%nat /\ (length ec <= 4)%nat).
Proof.
  intros R1 R2 e rx a b c ea eb ec. split; [|split].
  - subst ea. unfold LeafWetness.loop.
    destruct (LeafWetness.state a) eqn:Hs.
    + cbn. lia.
    + destruct (_ <? _); cbn; lia.
    + unfold bind, Wire.beginTransmission, Wire.write, Wire.endTransmission,
        Wire.requestFrom, emit, ret. cbv beta iota zeta.
      destruct (leaf_loop_READ_cases (LeafWetness.set_state a LeafWetness.READ)
                  (firstn (Z.to_nat 4) (reply e)))
        as [(b0 & b1 & b2 & b3 & _ & ->) | (_ & ->)]; cbn; lia.
    + destruct (leaf_loop_READ_cases a rx)
        as [(b0 & b1 & b2 & b3 & _ & ->) | (_ & ->)]; cbn; lia.
    + cbn. lia.
  - subst eb. destruct (Sen0590.state b) eqn:Hs.
    + rewrite (sen_request_step e b rx Hs). cbn. lia.
    + rewrite (sen_waiting_step e b rx Hs). cbn. lia.
    + rewrite (sen_ready_step e b rx Hs). destruct (ack e =? 0); cbn; lia.
    + destruct (sen_loop_READ_cases e b rx Hs) as [(b0 & b1 & _ & ->) | (_ & ->)];
        cbn; lia.
    + rewrite (sen_idle_step e b rx Hs). cbn. lia.
  - subst ec. destruct (Sen0590Settle.state c) eqn:Hs.
    + rewrite (settle_request_step e c rx Hs). cbn. lia.
    + destruct (Z.lt_ge_cases (settle_request_elapsed e c)
                  Sen0590Settle.request_wait_period) as [Hel|Hel].
      * rewrite (settle_ready_early e c rx Hs Hel). cbn. lia.
      * rewrite (settle_ready_step e c rx Hs Hel). cbn. lia.
    + destruct (Z.lt_ge_cases (settle_read_elapsed e c)
                  Sen0590Settle.read_wait_period) as [Hel|Hel].
      * rewrite (settle_read_early e c rx Hs Hel). cbn. lia.
      * rewrite (settle_read_complete e c rx Hs Hel). cbn. lia.
    + rewrite (settle_idle_step e c rx Hs). cbn. lia.
Qed.

(** ** READY *)

(** X5: in READY the wetness driver writes [REG_DATA], requests 4 bytes and
    runs on into the READ statements within the same [loop()], whatever
    status the write returned and whatever was left in the receive buffer.
    If the slave delivers at least four bytes, the first four are decoded
    and published in that very call and the driver ends in IDLE; if it
    delivers fewer, the driver ends in READ with just those bytes buffered
    and nothing published. *)
Theorem leaf_ready_runs_into_read :
  forall (REG_READ_ST REG_DATA : Z) (e : env) (d : LeafWetness.t) (rx : list Z),
    LeafWetness.state d = LeafWetness.READY ->
    let request :=
      [BeginTransmission 0x61; WireWrite REG_DATA; EndTransmission (ack e);
       RequestFrom 0x61 4] in
    (forall b0 b1 b2 b3 rest,
        reply e = b0 :: b1 :: b2 :: b3 :: rest ->
        LeafWetness.loop REG_READ_ST REG_DATA e d rx =
        (LeafWetness.mk (LeafWetness.startRequest d) LeafWetness.IDLE, [],
         request ++
         [Available 4;
          Read b0; Read b1;
          Publish wetness_sensor
            (LeafWetness.value_of (int16_of_bytes (to_byte b0) (to_byte b1)));
          Read b2; Read b3;
          Publish temperature_sensor
            (LeafWetness.value_of (int16_of_bytes (to_byte b2) (to_byte b3)))])) /\
    ((length (reply e) < 4)%nat ->
     LeafWetness.loop REG_READ_ST REG_DATA e d rx =
     (LeafWetness.mk (LeafWetness.startRequest d) LeafWetness.READ, reply e,
      request ++ [Available (Z.of_nat (length (reply e)))])).
Proof.
  intros R1 R2 e d rx Hs request. split.
  - intros b0 b1 b2 b3 rest Hr.
    rewrite (leaf_ready_step R1 R2 e d rx Hs), Hr. reflexivity.
  - intros Hlen.
    rewrite (leaf_ready_step R1 R2 e d rx Hs).
    rewrite firstn_all2 by lia.
    destruct (leaf_loop_READ_cases (LeafWetness.set_state d LeafWetness.READ) (reply e))
      as [(b0 & b1 & b2 & b3 & Hr & _) | (_ & ->)].
    + rewrite Hr in Hlen. cbn in Hlen. lia.
    + reflexivity.
Qed.

Lemma leaf_ready_runs_into_read_witness :
  let d := LeafWetness.mk 0 LeafWetness.READY in
  LeafWetness.state d = LeafWetness.READY /\
  LeafWetness.loop 1 2 (mkEnv 400 400 4 [0x10; 0x00]) d [9; 9; 9; 9] =
    (LeafWetness.mk 0 LeafWetness.READ, [0x10; 0x00],
     [BeginTransmission 0x61; WireWrite 2; EndTransmission 4; RequestFrom 0x61 4;
      Available 2]).
Proof.
  intros d.
  assert (Hs : LeafWetness.state d = LeafWetness.READY) by reflexivity.
  split; [exact Hs|].
  apply (leaf_ready_runs_into_read 1 2 (mkEnv 400 400 4 [0x10; 0x00]) d [9; 9; 9; 9] Hs).
  cbn. apply le_S, le_n.
Defined.

(** X6: in READY the availability-polled rangefinder, when the
    read-address write succeeds, requests 2 bytes and stops there: the
    receive buffer is replaced by at most two delivered bytes, the state
    becomes READ and nothing is published before the next [loop()]; that
    next call publishes the distance if two bytes were delivered. *)
Theorem sen_ready_then_read :
  forall (e e' : env) (d : Sen0590.t) (rx : list Z),
    Sen0590.state d = Sen0590.READY ->
    ack e = 0 ->
    Sen0590.loop e d rx =
      (Sen0590.mk (Sen0590.startRequest d) Sen0590.READ, firstn 2 (reply e),
       [BeginTransmission 0x74; WireWrite 0x02; EndTransmission 0; RequestFrom 0x74 2]) /\
    (forall high low rest,
        reply e = high :: low :: rest ->
        run Sen0590.loop [e; e'] d rx =
        (Sen0590.mk (Sen0590.startRequest d) Sen0590.READ, [],
         [BeginTransmission 0x74; WireWrite 0x02; EndTransmission 0; RequestFrom 0x74 2;
          Available 2; Read high; Read low;
          Publish this_sensor (IEEE.f32_of_int (high * 256 + low + 10))])).
Proof.
  intros e e' d rx Hs Hack.
  assert (Hstep : Sen0590.loop e d rx =
                  (Sen0590.mk (Sen0590.startRequest d) Sen0590.READ, firstn 2 (reply e),
                   [BeginTransmission 0x74; WireWrite 0x02; EndTransmission 0;
                    RequestFrom 0x74 2])).
  { rewrite (sen_ready_step e d rx Hs), Hack. reflexivity. }
  split; [exact Hstep|].
  intros high low rest Hr.
  rewrite run_cons, Hstep, Hr. cbv beta iota. cbn [firstn].
  rewrite run_cons.
  rewrite (sen_read_complete e' (Sen0590.mk (Sen0590.startRequest d) Sen0590.READ)
             high low eq_refl).
  reflexivity.
Qed.

Lemma sen_ready_then_read_witness :
  let e := mkEnv 60 60 0 [0x01; 0x2C] in
  let d := Sen0590.mk 0 Sen0590.READY in
  Sen0590.state d = Sen0590.READY /\ ack e = 0 /\
  Sen0590.loop e d [] =
    (Sen0590.mk 0 Sen0590.READ, [0x01; 0x2C],
     [BeginTransmission 0x74; WireWrite 0x02; EndTransmission 0; RequestFrom 0x74 2]).
Proof.
  intros e d.
  assert (Hs : Sen0590.state d = Sen0590.READY) by reflexivity.
  assert (Hack : ack e = 0) by reflexivity.
  split; [exact Hs|]. split; [exact Hack|].
  exact (proj1 (sen_ready_then_read e e d [] Hs Hack)).
Defined.

(** X7: in READY the rangefinder with two settle periods does nothing
    while the time elapsed since [startRequest] is below
    [request_wait_period]; from exactly 50 ms on (the boundary included) it
    issues the read-address write, and on status 0 enters READ with
    [startRead] set to a second [millis()] reading, taken after the write,
    without touching the receive buffer and without requesting any byte
    yet. *)
Theorem settle_ready_inclusive_threshold :
  forall (e : env) (d : Sen0590Settle.t) (rx : list Z),
    Sen0590Settle.state d = Sen0590Settle.READY ->
    Sen0590Settle.request_wait_period = 50 /\
    (settle_request_elapsed e d < Sen0590Settle.request_wait_period ->
       Sen0590Settle.loop e d rx = (d, rx, [])) /\
    (Sen0590Settle.request_wait_period <= settle_request_elapsed e d ->
     ack e = 0 ->
       Sen0590Settle.loop e d rx =
       (Sen0590Settle.mk (Sen0590Settle.startRequest d) (millis2 e) Sen0590Settle.READ,
        rx,
        [BeginTransmission 0x74; WireWrite 0x02; EndTransmission 0])).
Proof.
  intros e d rx Hs. split; [reflexivity|]. split.
  - intros Hel. apply settle_ready_early; assumption.
  - intros Hel Hack. rewrite (settle_ready_step e d rx Hs Hel), Hack. reflexivity.
Qed.

Lemma settle_ready_inclusive_threshold_witness :
  let d := Sen0590Settle.mk 1000 0 Sen0590Settle.READY in
  Sen0590Settle.state d = Sen0590Settle.READY /\
  Sen0590Settle.loop (mkEnv 1049 1049 0 []) d [7] = (d, [7], []) /\
  Sen0590Settle.loop (mkEnv 1050 1051 0 []) d [7] =
    (Sen0590Settle.mk 1000 1051 Sen0590Settle.READ, [7],
     [BeginTransmission 0x74; WireWrite 0x02; EndTransmission 0]).
Proof.
  intros d.
  assert (Hs : Sen0590Settle.state d = Sen0590Settle.READY) by reflexivity.
  split; [exact Hs|]. split.
  - apply (settle_ready_inclusive_threshold (mkEnv 1049 1049 0 []) d [7] Hs).
    vm_compute. reflexivity.
  - apply (settle_ready_inclusive_threshold (mkEnv 1050 1051 0 []) d [7] Hs).
    + vm_compute. discriminate.
    + reflexivity.
Defined.

(** ** The clock *)

(** The difference the drivers compute is the true delay, whatever the
    counter read at the start and also when it overflowed in between, as
    long as the delay is below [2^32] ms. *)
Lemma elapsed_is_delay (e : env) (start delta : Z) :
  0 <= delta < 2 ^ ULONG_BITS ->
  millis e = wrap_ulong (start + delta) ->
  wrap_ulong (millis e - start) = delta.
Proof.
  intros Hd He. rewrite He. unfold wrap_ulong.
  rewrite Zminus_mod_idemp_l.
  replace (start + delta - start) with delta by ring.
  apply Z.mod_small. exact Hd.
Qed.

(** X8: the waits survive the overflow of [millis()]: if [delta] ms (less
    than [2^32]) have really passed since the timestamp was taken, so that
    the counter now reads the timestamp plus [delta] modulo [2^32], then
    WAITING ends exactly when [delta > wait_period] and the read settle of
    the driver with two settle periods ends exactly when [delta >= 20], also
    when the counter wrapped around in between. *)
Theorem waits_measure_delay_across_overflow :
  forall (REG_READ_ST REG_DATA : Z) (e : env) (rx : list Z) (delta : Z)
         (a : LeafWetness.t) (b : Sen0590.t) (c : Sen0590Settle.t),
    0 <= delta < 2 ^ 32 ->
    LeafWetness.state a = LeafWetness.WAITING ->
    Sen0590.state b = Sen0590.WAITING ->
    Sen0590Settle.state c = Sen0590Settle.READ ->
    (millis e = wrap_ulong (LeafWetness.startRequest a + delta) ->
     LeafWetness.state (driver_of (LeafWetness.loop REG_READ_ST REG_DATA e a rx)) =
     if 300 <? delta then LeafWetness.READY else LeafWetness.WAITING) /\
    (millis e = wrap_ulong (Sen0590.startRequest b + delta) ->
     Sen0590.state (driver_of (Sen0590.loop e b rx)) =
     if 50 <? delta then Sen0590.READY else Sen0590.WAITING) /\
    (millis e = wrap_ulong (Sen0590Settle.startRead c + delta) ->
     Sen0590Settle.state (driver_of (Sen0590Settle.loop e c rx)) =
     if delta <? 20 then Sen0590Settle.READ else Sen0590Settle.IDLE).
Proof.
  intros R1 R2 e rx delta a b c Hd Ha Hb Hc. split; [|split]; intros He.
  - rewrite (leaf_waiting_step R1 R2 e a rx Ha). unfold leaf_elapsed.
    rewrite (elapsed_is_delay e _ delta Hd He).
    change LeafWetness.wait_period with 300.
    destruct (300 <? delta); [reflexivity | exact Ha].
  - rewrite (sen_waiting_step e b rx Hb). unfold sen_elapsed.
    rewrite (elapsed_is_delay e _ delta Hd He).
    change Sen0590.wait_period with 50.
    destruct (50 <? delta); [reflexivity | exact Hb].
  - pose proof (elapsed_is_delay e _ delta Hd He) as Hel.
    fold (settle_read_elapsed e c) in Hel.
    destruct (Z.ltb_spec delta 20) as [Hlt|Hge].
    + rewrite (settle_read_early e c rx Hc); [exact Hc|].
      rewrite Hel. exact Hlt.
    + rewrite (settle_read_complete e c rx Hc); [reflexivity|].
      rewrite Hel. exact Hge.
Qed.

Lemma waits_measure_delay_across_overflow_witness :
  let e := mkEnv 250 250 0 [] in
  let a := LeafWetness.mk 4294967196 LeafWetness.WAITING in
  let b := Sen0590.mk 4294967196 Sen0590.WAITING in
  let c := Sen0590Settle.mk 0 4294967196 Sen0590Settle.READ in
  0 <= 350 < 2 ^ 32 /\
  LeafWetness.state a = LeafWetness.WAITING /\
  Sen0590.state b = Sen0590.WAITING /\
  Sen0590Settle.state c = Sen0590Settle.READ /\
  millis e = wrap_ulong (LeafWetness.startRequest a + 350) /\
  LeafWetness.state (driver_of (LeafWetness.loop 1 2 e a [])) = LeafWetness.READY.
Proof.
  intros e a b c.
  assert (Hd : 0 <= 350 < 2 ^ 32) by (split; [discriminate | reflexivity]).
  assert (Ha : LeafWetness.state a = LeafWetness.WAITING) by reflexivity.
  assert (Hb : Sen0590.state b = Sen0590.WAITING) by reflexivity.
  assert (Hc : Sen0590Settle.state c = Sen0590Settle.READ) by reflexivity.
  assert (He : millis e = wrap_ulong (LeafWetness.startRequest a + 350))
    by (vm_compute; reflexivity).
  split; [exact Hd|]. split; [exact Ha|]. split; [exact Hb|]. split; [exact Hc|].
  split; [exact He|].
  exact (proj1 (waits_measure_delay_across_overflow 1 2 e [] 350 a b c Hd Ha Hb Hc) He).
Defined.

(** ** READ, once more *)

(** X9: the availability-polled rangefinder stays in READ after its
    publication, but it does not publish the same reading again: the two
    reads emptied the receive buffer, so every later [loop()] finds 0 bytes
    available and does nothing else, until [update()] is called. *)
Theorem sen_reading_published_once :
  forall (e : env) (es : list env) (d : Sen0590.t) (b0 b1 : Z),
    Sen0590.state d = Sen0590.READ ->
    run Sen0590.loop (e :: es) d [b0; b1] =
      (d, [],
       [Available 2; Read b0; Read b1;
        Publish this_sensor (IEEE.f32_of_int (b0 * 256 + b1 + 10))]
         ++ map (fun _ => Available 0) es) /\
    published (events_of (run Sen0590.loop (e :: es) d [b0; b1])) =
      [Publish this_sensor (IEEE.f32_of_int (b0 * 256 + b1 + 10))].
Proof.
  intros e es d b0 b1 Hs.
  assert (Hrun : run Sen0590.loop (e :: es) d [b0; b1] =
                 (d, [],
                  [Available 2; Read b0; Read b1;
                   Publish this_sensor (IEEE.f32_of_int (b0 * 256 + b1 + 10))]
                    ++ map (fun _ => Available 0) es)).
  { rewrite run_cons, (sen_read_complete e d b0 b1 Hs). cbv beta iota.
    rewrite (run_stutter Sen0590.loop d [] [Available 0]).
    - rewrite concat_map_singleton. reflexivity.
    - intros e0. apply (sen_read_not_ready e0 d [] Hs). discriminate. }
  split; [exact Hrun|].
  rewrite Hrun. unfold events_of, published. cbn [snd].
  rewrite filter_app. fold (published (map (fun _ : env => Available 0) es)).
  rewrite published_available. reflexivity.
Qed.

Lemma sen_reading_published_once_witness :
  let d := Sen0590.mk 0 Sen0590.READ in
  let es := [mkEnv 10 10 0 []; mkEnv 20 20 0 []] in
  Sen0590.state d = Sen0590.READ /\
  published (events_of (run Sen0590.loop (mkEnv 5 5 0 [] :: es) d [0x01; 0x2C])) =
    [Publish this_sensor (IEEE.f32_of_int 310)].
Proof.
  intros d es.
  assert (Hs : Sen0590.state d = Sen0590.READ) by reflexivity.
  split; [exact Hs|].
  exact (proj2 (sen_reading_published_once (mkEnv 5 5 0 []) es d 0x01 0x2C Hs)).
Defined.

(** X10: when the slave delivers fewer than two bytes, the rangefinder
    with two settle periods still publishes: each missing byte is the -1
    of [Wire.read()], so an empty answer gives the distance -247 and a
    single byte [high] gives [high * 256 + 9]; the driver goes to IDLE all
    the same. *)
Theorem settle_short_read_still_publishes :
  forall (e : env) (d : Sen0590Settle.t) (rx : list Z),
    Sen0590Settle.state d = Sen0590Settle.READ ->
    Sen0590Settle.read_wait_period <= settle_read_elapsed e d ->
    Sen0590Settle.state (driver_of (Sen0590Settle.loop e d rx)) = Sen0590Settle.IDLE /\
    (reply e = [] ->
     published (events_of (Sen0590Settle.loop e d rx)) =
     [Publish this_sensor (IEEE.f32_of_int (-247))]) /\
    (forall high, reply e = [high] ->
     published (events_of (Sen0590Settle.loop e d rx)) =
     [Publish this_sensor (IEEE.f32_of_int (high * 256 + 9))]).
Proof.
  intros e d rx Hs Hel.
  rewrite (settle_read_complete e d rx Hs Hel).
  split; [reflexivity|]. split.
  - intros Hr. rewrite Hr. reflexivity.
  - intros high Hr. rewrite Hr. unfold events_of, published. cbn.
    unfold Sen0590Settle.distance_of.
    replace (high * 256 + -1 + 10) with (high * 256 + 9) by ring. reflexivity.
Qed.

Lemma settle_short_read_still_publishes_witness :
  let e := mkEnv 30 30 0 [] in
  let d := Sen0590Settle.mk 0 5 Sen0590Settle.READ in
  Sen0590Settle.state d = Sen0590Settle.READ /\
  Sen0590Settle.read_wait_period <= settle_read_elapsed e d /\
  published (events_of (Sen0590Settle.loop e d [])) =
    [Publish this_sensor (IEEE.f32_of_int (-247))].
Proof.
  intros e d.
  assert (Hs : Sen0590Settle.state d = Sen0590Settle.READ) by reflexivity.
  assert (Hel : Sen0590Settle.read_wait_period <= settle_read_elapsed e d)
    by (vm_compute; discriminate).
  split; [exact Hs|]. split; [exact Hel|].
  destruct (settle_short_read_still_publishes e d [] Hs Hel) as (_ & H & _).
  apply H. reflexivity.
Defined.

(** ** The decoders *)

(** X11: the 16-bit value the wetness driver assembles from two bytes
    loses nothing: it lies in [-32768, 32767], its low and high bytes are
    the two bytes read, in that order, and it is negative exactly when the
    second byte has its top bit set. *)
Theorem int16_of_bytes_round_trip :
  forall (p0 p1 : Z),
    is_byte p0 -> is_byte p1 ->
    let v := int16_of_bytes (to_byte p0) (to_byte p1) in
    -32768 <= v < 32768 /\
    v mod 256 = p0 /\
    (v / 256) mod 256 = p1 /\
    (v < 0 <-> 128 <= p1).
Proof.
  intros p0 p1 H0 H1 v. subst v.
  rewrite !to_byte_id by assumption.
  rewrite (int16_of_bytes_spec p0 p1 H0 H1).
  unfold spec_int16_le, is_byte in *.
  destruct (Z.lt_ge_cases (p0 + 256 * p1) 32768) as [Hlt|Hge].
  - replace ((p0 + 256 * p1 + 32768) mod 65536 - 32768) with (p0 + 256 * p1)
      by (rewrite Z.mod_small; lia).
    repeat split; try lia; Z.div_mod_to_equations; lia.
  - replace ((p0 + 256 * p1 + 32768) mod 65536 - 32768) with (p0 + 256 * (p1 - 256)).
    + repeat split; try lia; Z.div_mod_to_equations; lia.
    + replace (p0 + 256 * p1 + 32768) with (p0 + 256 * p1 - 32768 + 1 * 65536) by ring.
      rewrite Z.mod_add by lia. rewrite Z.mod_small by lia. ring.
Qed.

Lemma int16_of_bytes_round_trip_witness :
  is_byte 0x38 /\ is_byte 0xFF /\
  int16_of_bytes (to_byte 0x38) (to_byte 0xFF) < 0.
Proof.
  assert (H0 : is_byte 0x38) by (split; [discriminate | reflexivity]).
  assert (H1 : is_byte 0xFF) by (split; [discriminate | reflexivity]).
  split; [exact H0|]. split; [exact H1|].
  destruct (int16_of_bytes_round_trip 0x38 0xFF H0 H1) as (_ & _ & _ & Hneg).
  apply Hneg. discriminate.
Defined.

(** X12: for bytes, the distance both rangefinders compute lies between
    10 and 65545, the two drivers agree on it, and the two bytes can be
    read back from it: the quotient and the remainder of [distance - 10] by
    256 are [buf[0]] and [buf[1]], so distinct byte pairs never give the
    same distance. *)
Theorem distance_round_trip :
  forall (buf0 buf1 : Z),
    is_byte buf0 -> is_byte buf1 ->
    let distance := Sen0590.distance_of buf0 buf1 in
    Sen0590Settle.distance_of buf0 buf1 = distance /\
    10 <= distance <= 65545 /\
    (distance - 10) / 256 = buf0 /\
    (distance - 10) mod 256 = buf1.
Proof.
  intros buf0 buf1 H0 H1 distance. subst distance.
  unfold Sen0590.distance_of, Sen0590Settle.distance_of, is_byte in *.
  change 0x100 with 256.
  split; [reflexivity|]. split; [lia|].
  replace (buf0 * 256 + buf1 + 10 - 10) with (buf1 + buf0 * 256) by ring.
  split.
  - rewrite Z.div_add by lia. rewrite Z.div_small by lia. reflexivity.
  - rewrite Z.mod_add by lia. apply Z.mod_small. lia.
Qed.

Lemma distance_round_trip_witness :
  is_byte 0x01 /\ is_byte 0x2C /\
  (Sen0590.distance_of 0x01 0x2C - 10) / 256 = 0x01 /\
  (Sen0590.distance_of 0x01 0x2C - 10) mod 256 = 0x2C.
Proof.
  assert (H0 : is_byte 0x01) by (split; [discriminate | reflexivity]).
  assert (H1 : is_byte 0x2C) by (split; [discriminate | reflexivity]).
  destruct (distance_round_trip 0x01 0x2C H0 H1) as (_ & _ & Hq & Hr).
  split; [exact H0|]. split; [exact H1|]. split; [exact Hq | exact Hr].
Defined.

Lemma centi_bounds w :
  -32768 <= w < 32768 -> (-(32768 # 100) <= w # 100 <= 32768 # 100)%Q.
Proof. intros Hw. unfold Qle. cbn. lia. Qed.

Lemma centi_step w1 w2 : w1 < w2 -> ((w1 # 100) + (1 # 100) <= w2 # 100)%Q.
Proof. intros Hw. unfold Qle, Qplus. cbn. lia. Qed.

Lemma value_of_abs_error w q :
  -32768 <= w < 32768 ->
  (Qabs (q - (w # 100)) * inject_Z (2 ^ 24) <= Qabs (w # 100))%Q ->
  (-(1 # 51200) <= q - (w # 100) <= 1 # 51200)%Q.
Proof.
  intros Hw H.
  apply Qabs_Qle_condition.
  assert (Hx : (Qabs (w # 100) <= 32768 # 100)%Q)
    by (apply Qabs_Qle_condition, centi_bounds, Hw).
  change (inject_Z (2 ^ 24)) with (16777216 # 1)%Q in H.
  set (A := Qabs (q - (w # 100))) in *.
  set (B := Qabs (w # 100)) in *.
  lra.
Qed.

(** X13: for every raw 16-bit reading [w], the float the wetness driver
    publishes for [w / 100.0] is finite and off the exact quotient by at
    most [1/51200] (less than 0.00002); hence a larger raw reading always
    gives a strictly larger published value, and no two raw readings are
    published as the same number. *)
Theorem value_of_error_and_order :
  forall (w1 w2 : Z),
    -32768 <= w1 < 32768 -> -32768 <= w2 < 32768 ->
    exists q1 q2,
      IEEE.SF2Q (LeafWetness.value_of w1) = Some q1 /\
      IEEE.SF2Q (LeafWetness.value_of w2) = Some q2 /\
      (Qabs (q1 - (w1 # 100)) <= 1 # 51200)%Q /\
      (w1 < w2 -> (q1 < q2)%Q) /\
      (LeafWetness.value_of w1 = LeafWetness.value_of w2 -> w1 = w2).
Proof.
  intros w1 w2 H1 H2.
  destruct (value_of_accurate w1 H1) as (q1 & E1 & A1).
  destruct (value_of_accurate w2 H2) as (q2 & E2 & A2).
  apply value_of_abs_error in A1; [|exact H1].
  apply value_of_abs_error in A2; [|exact H2].
  assert (Hlt : forall u1 u2 r1 r2,
             u1 < u2 ->
             (-(1 # 51200) <= r1 - (u1 # 100) <= 1 # 51200)%Q ->
             (-(1 # 51200) <= r2 - (u2 # 100) <= 1 # 51200)%Q ->
             (r1 < r2)%Q).
  { intros u1 u2 r1 r2 Hu B1 B2.
    pose proof (centi_step u1 u2 Hu) as Hs.
    set (x1 := (u1 # 100)%Q) in *. set (x2 := (u2 # 100)%Q) in *. lra. }
  exists q1, q2. split; [exact E1|]. split; [exact E2|]. split; [|split].
  - apply Qabs_Qle_condition. exact A1.
  - intros Hw. exact (Hlt w1 w2 q1 q2 Hw A1 A2).
  - intros Heq. rewrite Heq, E2 in E1. injection E1 as E1. subst q2.
    destruct (Z.lt_trichotomy w1 w2) as [Hw | [Hw | Hw]]; [|exact Hw|].
    + exfalso. apply (Qlt_irrefl q1). exact (Hlt w1 w2 q1 q1 Hw A1 A2).
    + exfalso. apply (Qlt_irrefl q1). exact (Hlt w2 w1 q1 q1 Hw A2 A1).
Qed.

Lemma value_of_error_and_order_witness :
  -32768 <= 16 < 32768 /\ -32768 <= 200 < 32768 /\
  exists q1 q2,
    IEEE.SF2Q (LeafWetness.value_of 16) = Some q1 /\
    IEEE.SF2Q (LeafWetness.value_of 200) = Some q2 /\
    (Qabs (q1 - (16 # 100)) <= 1 # 51200)%Q.
Proof.
  assert (H1 : -32768 <= 16 < 32768) by (split; [discriminate | reflexivity]).
  assert (H2 : -32768 <= 200 < 32768) by (split; [discriminate | reflexivity]).
  split; [exact H1|]. split; [exact H2|].
  destruct (value_of_error_and_order 16 200 H1 H2) as (q1 & q2 & E1 & E2 & A & _).
  exists q1, q2. split; [exact E1|]. split; [exact E2|]. exact A.
Defined.

(** ** From [update()] to the publication *)

(** X14: a wetness transaction takes three [loop()] calls at best.  After
    [update()], the first call sends the measurement request, the second
    one (made more than 300 ms later by the driver's clock arithmetic)
    moves to READY, and the third one requests the data and, if the slave
    delivers four bytes, publishes both values and ends in IDLE, whatever
    the statuses of the two writes.  The first two calls never publish. *)
Theorem leaf_transaction_in_three_loops :
  forall (REG_READ_ST REG_DATA : Z) (e0 e1 e2 : env) (d : LeafWetness.t) (rx : list Z)
         (b0 b1 b2 b3 : Z) (rest : list Z),
    LeafWetness.wait_period < wrap_ulong (millis e1 - millis e0) ->
    reply e2 = b0 :: b1 :: b2 :: b3 :: rest ->
    run (LeafWetness.loop REG_READ_ST REG_DATA) [e0; e1; e2] (LeafWetness.update d) rx =
      (LeafWetness.mk (millis e0) LeafWetness.IDLE, [],
       [BeginTransmission 0x61; WireWrite REG_READ_ST; EndTransmission (ack e0);
        BeginTransmission 0x61; WireWrite REG_DATA; EndTransmission (ack e2);
        RequestFrom 0x61 4; Available 4;
        Read b0; Read b1;
        Publish wetness_sensor
          (LeafWetness.value_of (int16_of_bytes (to_byte b0) (to_byte b1)));
        Read b2; Read b3;
        Publish temperature_sensor
          (LeafWetness.value_of (int16_of_bytes (to_byte b2) (to_byte b3)))]) /\
    published
      (events_of (run (LeafWetness.loop REG_READ_ST REG_DATA) [e0; e1]
                      (LeafWetness.update d) rx)) = [].
Proof.
  intros R1 R2 e0 e1 e2 d rx b0 b1 b2 b3 rest Hel Hr.
  assert (H0 := leaf_request_step R1 R2 e0 (LeafWetness.update d) rx eq_refl).
  assert (H1 : LeafWetness.loop R1 R2 e1 (LeafWetness.mk (millis e0) LeafWetness.WAITING) rx
               = (LeafWetness.mk (millis e0) LeafWetness.READY, rx, [])).
  { rewrite (leaf_waiting_step R1 R2 e1 (LeafWetness.mk (millis e0) LeafWetness.WAITING)
               rx eq_refl).
    unfold leaf_elapsed. cbn [LeafWetness.startRequest].
    destruct (Z.ltb_spec LeafWetness.wait_period (wrap_ulong (millis e1 - millis e0)));
      [reflexivity | lia]. }
  split.
  - rewrite run_cons, H0. cbv beta iota.
    rewrite run_cons, H1. cbv beta iota.
    rewrite run_cons.
    rewrite (leaf_ready_step R1 R2 e2 (LeafWetness.mk (millis e0) LeafWetness.READY)
               rx eq_refl), Hr.
    reflexivity.
  - rewrite run_cons, H0. cbv beta iota.
    rewrite run_cons, H1. reflexivity.
Qed.

Lemma leaf_transaction_in_three_loops_witness :
  let e0 := mkEnv 1000 1000 0 [] in
  let e1 := mkEnv 1301 1301 0 [] in
  let e2 := mkEnv 1302 1302 0 [0x10; 0x00; 0xC8; 0x00] in
  LeafWetness.wait_period < wrap_ulong (millis e1 - millis e0) /\
  reply e2 = [0x10; 0x00; 0xC8; 0x00] /\
  published
    (events_of (run (LeafWetness.loop 1 2) [e0; e1; e2]
                    (LeafWetness.update LeafWetness.init) [])) =
    [Publish wetness_sensor (LeafWetness.value_of 16);
     Publish temperature_sensor (LeafWetness.value_of 200)].
Proof.
  intros e0 e1 e2.
  assert (Hel : LeafWetness.wait_period < wrap_ulong (millis e1 - millis e0))
    by (vm_compute; reflexivity).
  assert (Hr : reply e2 = [0x10; 0x00; 0xC8; 0x00]) by reflexivity.
  split; [exact Hel|]. split; [exact Hr|].
  rewrite (proj1 (leaf_transaction_in_three_loops 1 2 e0 e1 e2 LeafWetness.init []
                    0x10 0x00 0xC8 0x00 [] Hel Hr)).
  reflexivity.
Defined.

(** X15: a transaction of the rangefinder with two settle periods takes
    three [loop()] calls at best: the request; at least 50 ms later the
    read-address write, which must return status 0; then the read, at least
    20 ms after the second [millis()] reading of the READY call (the one
    stored in [startRead], taken after the write).  The distance is then
    published from the two bytes delivered and the driver is IDLE.  A third
    call that comes less than 20 ms after that second reading publishes
    nothing and leaves the driver in READ. *)
Theorem settle_transaction_in_three_loops :
  forall (e0 e1 e2 : env) (d : Sen0590Settle.t) (rx : list Z)
         (high low : Z) (rest : list Z),
    Sen0590Settle.request_wait_period <= wrap_ulong (millis e1 - millis e0) ->
    ack e1 = 0 ->
    reply e2 = high :: low :: rest ->
    (Sen0590Settle.read_wait_period <= wrap_ulong (millis e2 - millis2 e1) ->
     run Sen0590Settle.loop [e0; e1; e2] (Sen0590Settle.update d) rx =
       (Sen0590Settle.mk (millis e0) (millis2 e1) Sen0590Settle.IDLE, [],
        [BeginTransmission 0x74; WireWrite 0x10; WireWrite 0xB0; EndTransmission (ack e0);
         BeginTransmission 0x74; WireWrite 0x02; EndTransmission 0;
         RequestFrom 0x74 2; Read high; Read low;
         Publish this_sensor (IEEE.f32_of_int (high * 256 + low + 10))])) /\
    (wrap_ulong (millis e2 - millis2 e1) < Sen0590Settle.read_wait_period ->
     run Sen0590Settle.loop [e0; e1; e2] (Sen0590Settle.update d) rx =
       (Sen0590Settle.mk (millis e0) (millis2 e1) Sen0590Settle.READ, rx,
        [BeginTransmission 0x74; WireWrite 0x10; WireWrite 0xB0; EndTransmission (ack e0);
         BeginTransmission 0x74; WireWrite 0x02; EndTransmission 0])).
Proof.
  intros e0 e1 e2 d rx high low rest Hreq Hack Hr.
  set (d1 := Sen0590Settle.mk (millis e0)
               (Sen0590Settle.startRead (Sen0590Settle.update d)) Sen0590Settle.READY).
  set (d2 := Sen0590Settle.mk (millis e0) (millis2 e1) Sen0590Settle.READ).
  assert (H0 : Sen0590Settle.loop e0 (Sen0590Settle.update d) rx =
               (d1, rx,
                [BeginTransmission 0x74; WireWrite 0x10; WireWrite 0xB0;
                 EndTransmission (ack e0)]))
    by (apply settle_request_step; reflexivity).
  assert (H1 : Sen0590Settle.loop e1 d1 rx =
               (d2, rx, [BeginTransmission 0x74; WireWrite 0x02; EndTransmission 0])).
  { rewrite (settle_ready_step e1 d1 rx eq_refl) by exact Hreq.
    rewrite Hack. reflexivity. }
  split; intros Hread.
  - assert (H2 := settle_read_complete e2 d2 rx eq_refl Hread).
    rewrite Hr in H2.
    rewrite run_cons, H0. cbv beta iota.
    rewrite run_cons, H1. cbv beta iota.
    rewrite run_cons, H2. reflexivity.
  - assert (H2 := settle_read_early e2 d2 rx eq_refl Hread).
    rewrite run_cons, H0. cbv beta iota.
    rewrite run_cons, H1. cbv beta iota.
    rewrite run_cons, H2. reflexivity.
Qed.

Lemma settle_transaction_in_three_loops_witness :
  let e0 := mkEnv 1000 1000 0 [] in
  let e1 := mkEnv 1050 1051 0 [] in
  let e2 := mkEnv 1071 1071 0 [0x01; 0x2C] in
  let early := mkEnv 1070 1070 0 [0x01; 0x2C] in
  Sen0590Settle.request_wait_period <= wrap_ulong (millis e1 - millis e0) /\
  ack e1 = 0 /\
  reply e2 = [0x01; 0x2C] /\
  Sen0590Settle.read_wait_period <= wrap_ulong (millis e2 - millis2 e1) /\
  wrap_ulong (millis early - millis2 e1) < Sen0590Settle.read_wait_period /\
  driver_of (run Sen0590Settle.loop [e0; e1; e2]
                 (Sen0590Settle.update Sen0590Settle.init) []) =
    Sen0590Settle.mk 1000 1051 Sen0590Settle.IDLE /\
  run Sen0590Settle.loop [e0; e1; early] (Sen0590Settle.update Sen0590Settle.init) [] =
    (Sen0590Settle.mk 1000 1051 Sen0590Settle.READ, [],
     [BeginTransmission 0x74; WireWrite 0x10; WireWrite 0xB0; EndTransmission 0;
      BeginTransmission 0x74; WireWrite 0x02; EndTransmission 0]).
Proof.
  intros e0 e1 e2 early.
  assert (Hreq : Sen0590Settle.request_wait_period <= wrap_ulong (millis e1 - millis e0))
    by (vm_compute; discriminate).
  assert (Hack : ack e1 = 0) by reflexivity.
  assert (Hr : reply e2 = [0x01; 0x2C]) by reflexivity.
  assert (Hread : Sen0590Settle.read_wait_period <= wrap_ulong (millis e2 - millis2 e1))
    by (vm_compute; discriminate).
  assert (Hearly : wrap_ulong (millis early - millis2 e1) < Sen0590Settle.read_wait_period)
    by (vm_compute; reflexivity).
  split; [exact Hreq|]. split; [exact Hack|]. split; [exact Hr|].
  split; [exact Hread|]. split; [exact Hearly|]. split.
  - rewrite (proj1 (settle_transaction_in_three_loops e0 e1 e2 Sen0590Settle.init []
                      0x01 0x2C [] Hreq Hack Hr) Hread).
    reflexivity.
  - exact (proj2 (settle_transaction_in_three_loops e0 e1 early Sen0590Settle.init []
                    0x01 0x2C [] Hreq Hack Hr) Hearly).
Defined.

(** X16: a transaction of the availability-polled rangefinder takes four
    [loop()] calls at best (request, end of the wait, read request, read),
    after which the distance has been published once and the driver rests
    in READ with [startRequest] holding the time of the first call. *)
Theorem sen_transaction_in_four_loops :
  forall (e0 e1 e2 e3 : env) (d : Sen0590.t) (rx : list Z)
         (high low : Z) (rest : list Z),
    Sen0590.wait_period < wrap_ulong (millis e1 - millis e0) ->
    ack e2 = 0 ->
    reply e2 = high :: low :: rest ->
    run Sen0590.loop [e0; e1; e2; e3] (Sen0590.update d) rx =
      (Sen0590.mk (millis e0) Sen0590.READ, [],
       [BeginTransmission 0x74; WireWrite 0x10; WireWrite 0xB0; EndTransmission (ack e0);
        BeginTransmission 0x74; WireWrite 0x02; EndTransmission 0;
        RequestFrom 0x74 2;
        Available 2; Read high; Read low;
        Publish this_sensor (IEEE.f32_of_int (high * 256 + low + 10))]) /\
    published (events_of (run Sen0590.loop [e0; e1; e2] (Sen0590.update d) rx)) = [].
Proof.
  intros e0 e1 e2 e3 d rx high low rest Hel Hack Hr.
  assert (H0 := sen_request_step e0 (Sen0590.update d) rx eq_refl).
  assert (H1 : Sen0590.loop e1 (Sen0590.mk (millis e0) Sen0590.WAITING) rx
               = (Sen0590.mk (millis e0) Sen0590.READY, rx, [])).
  { rewrite (sen_waiting_step e1 (Sen0590.mk (millis e0) Sen0590.WAITING) rx eq_refl).
    unfold sen_elapsed. cbn [Sen0590.startRequest].
    destruct (Z.ltb_spec Sen0590.wait_period (wrap_ulong (millis e1 - millis e0)));
      [reflexivity | lia]. }
  assert (H2 : Sen0590.loop e2 (Sen0590.mk (millis e0) Sen0590.READY) rx
               = (Sen0590.mk (millis e0) Sen0590.READ, [high; low],
                  [BeginTransmission 0x74; WireWrite 0x02; EndTransmission 0;
                   RequestFrom 0x74 2])).
  { rewrite (sen_ready_step e2 (Sen0590.mk (millis e0) Sen0590.READY) rx eq_refl),
      Hack, Hr.
    reflexivity. }
  split.
  - rewrite run_cons, H0. cbv beta iota.
    rewrite run_cons, H1. cbv beta iota.
    rewrite run_cons, H2. cbv beta iota.
    rewrite run_cons.
    rewrite (sen_read_complete e3 (Sen0590.mk (millis e0) Sen0590.READ) high low eq_refl).
    reflexivity.
  - rewrite run_cons, H0. cbv beta iota.
    rewrite run_cons, H1. cbv beta iota.
    rewrite run_cons, H2. reflexivity.
Qed.

Lemma sen_transaction_in_four_loops_witness :
  let e0 := mkEnv 1000 1000 0 [] in
  let e1 := mkEnv 1051 1051 0 [] in
  let e2 := mkEnv 1052 1052 0 [0x01; 0x2C] in
  let e3 := mkEnv 1053 1053 0 [] in
  Sen0590.wait_period < wrap_ulong (millis e1 - millis e0) /\
  ack e2 = 0 /\
  reply e2 = [0x01; 0x2C] /\
  published (events_of (run Sen0590.loop [e0; e1; e2; e3]
                            (Sen0590.update Sen0590.init) [])) =
    [Publish this_sensor (IEEE.f32_of_int 310)].
Proof.
  intros e0 e1 e2 e3.
  assert (Hel : Sen0590.wait_period < wrap_ulong (millis e1 - millis e0))
    by (vm_compute; reflexivity).
  assert (Hack : ack e2 = 0) by reflexivity.
  assert (Hr : reply e2 = [0x01; 0x2C]) by reflexivity.
  split; [exact Hel|]. split; [exact Hack|]. split; [exact Hr|].
  rewrite (proj1 (sen_transaction_in_four_loops e0 e1 e2 e3 Sen0590.init []
                    0x01 0x2C [] Hel Hack Hr)).
  reflexivity.
Defined.
